(** * ZklendTransformer: event dispatch of the zkLend data handler

    Shallow embedding of
    [apps/data_handler/handlers/events/zklend/transform_events.py]:
    the registry [EVENT_MAPPING] and the three methods of
    [ZklendTransformer].  Python values are a small universe of dynamically
    typed data, exceptions are values of [exn], and a method is a function
    in a state-and-error monad whose state holds [self], the state of the
    outside world and the list of persistence calls made so far. *)

From Stdlib Require Import String Ascii List ZArith Bool Lia.
Import ListNotations.
Local Open Scope string_scope.
Local Open Scope list_scope.

(** ** Python values *)

Set Warnings "-register-all".

(** The values a fetch response is made of: what a decoded JSON document
    holds.  A [dict] keeps its items in insertion order; its keys are
    strings and [dict_get] reads the first binding of a key. *)
Inductive pyval : Type :=
| PNone
| PBool (b : bool)
| PInt (z : Z)
| PStr (s : string)
| PList (items : list pyval)
| PDict (items : list (string * pyval)).

(** An f-string is kept as its pieces: literal text and formatted values. *)
Inductive fpiece : Type :=
| Lit (s : string)
| Fmt (v : pyval).

Definition fstring := list fpiece.

(** Exceptions.  [Foreign] is an exception raised inside a collaborator
    (parser, model class, connectors): its class name and its [args]. *)
Inductive exn : Type :=
| ValueError (msg : fstring)
| TypeError (msg : string)
| AttributeError (msg : string)
| KeyError (key : string)
| Foreign (cls : string) (args : list pyval).

Inductive result (A : Type) : Type :=
| Ok (a : A)
| Raise (e : exn).
Arguments Ok {A} a.
Arguments Raise {A} e.

Module Py.

Fixpoint dict_get (d : list (string * pyval)) (k : string) : option pyval :=
  match d with
  | [] => None
  | (k', v) :: d' => if String.eqb k' k then Some v else dict_get d' k
  end.

Definition dict_has (d : list (string * pyval)) (k : string) : bool :=
  match dict_get d k with Some _ => true | None => false end.

(** [v == s] for a string [s]: only a string equals a string. *)
Definition eq_str (v : pyval) (s : string) : bool :=
  match v with
  | PStr t => String.eqb t s
  | _ => false
  end.

Definition type_name (v : pyval) : string :=
  match v with
  | PNone => "NoneType"
  | PBool _ => "bool"
  | PInt _ => "int"
  | PStr _ => "str"
  | PList _ => "list"
  | PDict _ => "dict"
  end.

(** [s in v]: key membership for a dict, element membership for a list,
    substring test for a string, [TypeError] for the rest. *)
Definition contains (v : pyval) (s : string) : result bool :=
  match v with
  | PDict d => Ok (dict_has d s)
  | PList l => Ok (existsb (fun x => eq_str x s) l)
  | PStr t => Ok (match index 0 s t with Some _ => true | None => false end)
  | _ => Raise (TypeError ("argument of type '" ++ type_name v ++ "' is not iterable"))
  end.

(** [v[k]] for a string key [k]. *)
Definition getitem (v : pyval) (k : string) : result pyval :=
  match v with
  | PDict d =>
      match dict_get d k with
      | Some x => Ok x
      | None => Raise (KeyError k)
      end
  | PList _ => Raise (TypeError "list indices must be integers or slices, not str")
  | PStr _ => Raise (TypeError "string indices must be integers, not 'str'")
  | _ => Raise (TypeError ("'" ++ type_name v ++ "' object is not subscriptable"))
  end.

(** [v.get(k)]: only a dict has the method; a missing key gives [None]. *)
Definition get (v : pyval) (k : string) : result pyval :=
  match v with
  | PDict d =>
      match dict_get d k with
      | Some x => Ok x
      | None => Ok PNone
      end
  | _ => Raise (AttributeError ("'" ++ type_name v ++ "' object has no attribute 'get'"))
  end.

(** The items [for x in v] runs through. *)
Definition iter (v : pyval) : result (list pyval) :=
  match v with
  | PList l => Ok l
  | PDict d => Ok (map (fun kv => PStr (fst kv)) d)
  | PStr t => Ok (map (fun c => PStr (String c EmptyString)) (list_ascii_of_string t))
  | _ => Raise (TypeError ("'" ++ type_name v ++ "' object is not iterable"))
  end.

End Py.

(** ** Imported names *)

(** A pydantic serializer instance, seen through [model_dump()]. *)
Record BaseModel : Type := { model_dump : list (string * pyval) }.

Section Transformer.

(** State of the outside world (upstream API, database). *)
Variable World : Type.
(** Instances of the ORM models ([Type[Base]] in the registry's annotation). *)
Variable Base : Type.

(** [ZkLendDataParser.parse_accumulators_sync_event] and
    [ZkLendDataParser.parse_liquidation_event], and the two model classes
    called with keyword arguments: imported, not defined in this module. *)
Variable parse_accumulators_sync_event : pyval -> result BaseModel.
Variable parse_liquidation_event : pyval -> result BaseModel.
Variable AccumulatorsSyncModel : list (string * pyval) -> result Base.
Variable LiquidationModel : list (string * pyval) -> result Base.

(** [DeRiskAPIConnector]: the one method the transformer calls. *)
Record DeRiskAPIConnector : Type := {
  get_data : string -> Z -> Z -> World -> result pyval * World
}.

(** [ZkLendEventDBConnector].  The transformer reaches an operation in two
    ways: by subscript, [db_connector[name]], and by attribute,
    [db_connector.name].  An operation is known by its name:
    [db_has_operation] tells the methods of the class, [db_getitem] is what
    a subscript answers (the operation it hands back, or the exception it
    raises), and [db_call] runs an operation on one record. *)
Record ZkLendEventDBConnector : Type := {
  db_has_operation : string -> bool;
  db_getitem : string -> result string;
  db_call : string -> Base -> World -> result unit * World
}.

(** [db_connector.name]: the method of that name, when the class has one. *)
Definition db_getattr (db : ZkLendEventDBConnector) (name : string) : result string :=
  if db_has_operation db name then Ok name
  else Raise (AttributeError
                ("'ZkLendEventDBConnector' object has no attribute '" ++ name ++ "'")).

Record ZklendTransformer : Type := {
  api_connector : DeRiskAPIConnector;
  db_connector : ZkLendEventDBConnector
}.

(** One persistence call: the operation and the record it was given. *)
Record Call : Type := { call_op : string; call_arg : Base }.

Record St : Type := {
  this : ZklendTransformer;
  world : World;
  calls : list Call
}.

(** ** The monad of methods *)

Definition M (A : Type) : Type := St -> result A * St.

Definition ret {A} (a : A) : M A := fun st => (Ok a, st).

Definition raise {A} (e : exn) : M A := fun st => (Raise e, st).

Definition bind {A B} (m : M A) (f : A -> M B) : M B :=
  fun st =>
    match m st with
    | (Ok a, st') => f a st'
    | (Raise e, st') => (Raise e, st')
    end.

Definition lift {A} (r : result A) : M A := fun st => (r, st).

Definition get_self : M ZklendTransformer := fun st => (Ok (this st), st).

Notation "x <- m ;; k" := (bind m (fun x => k))
  (at level 61, m at next level, right associativity).
Notation "m ;;; k" := (bind m (fun _ => k))
  (at level 61, right associativity).

Definition set_world (w : World) (st : St) : St :=
  {| this := this st; world := w; calls := calls st |}.

Definition record_call (c : Call) (st : St) : St :=
  {| this := this st; world := world st; calls := calls st ++ [c] |}.

(** [api.get_data(...)]: runs in the world. *)
Definition call_get_data (api : DeRiskAPIConnector)
    (from_address : string) (min_block max_block : Z) : M pyval :=
  fun st =>
    let '(r, w) := get_data api from_address min_block max_block (world st) in
    (r, set_world w st).

(** [op(db_model)] on a bound operation: the call is recorded, then it
    runs in the world and may raise. *)
Definition call_db (db : ZkLendEventDBConnector) (op : string) (db_model : Base)
    : M unit :=
  fun st =>
    let '(r, w) := db_call db op db_model (world st) in
    (r, set_world w (record_call {| call_op := op; call_arg := db_model |} st)).

Fixpoint for_each (body : pyval -> M unit) (items : list pyval) : M unit :=
  match items with
  | [] => ret tt
  | x :: rest => body x ;;; for_each body rest
  end.

(** ** The registry *)

Definition Entry : Type :=
  ((pyval -> result BaseModel) * string * (list (string * pyval) -> result Base))%type.

Definition ACCUMULATORS_SYNC : string := "zklend::market::Market::AccumulatorsSync".
Definition LIQUIDATION : string := "zklend::market::Market::Liquidation".

Definition EVENT_MAPPING : list (string * Entry) :=
  [ (ACCUMULATORS_SYNC,
     (parse_accumulators_sync_event, "create_accumulator_event", AccumulatorsSyncModel));
    (LIQUIDATION,
     (parse_liquidation_event, "create_liquidation_event", LiquidationModel)) ].

Fixpoint mapping_get (m : list (string * Entry)) (k : string) : option Entry :=
  match m with
  | [] => None
  | (k', e) :: m' => if String.eqb k' k then Some e else mapping_get m' k
  end.

(** [event_type in EVENT_MAPPING] together with [EVENT_MAPPING[event_type]]:
    a list or a dict is not hashable, any other value that is not a string
    equals no key. *)
Definition registry_lookup (event_type : pyval) : result (option Entry) :=
  match event_type with
  | PStr t => Ok (mapping_get EVENT_MAPPING t)
  | PList _ => Raise (TypeError "unhashable type: 'list'")
  | PDict _ => Raise (TypeError "unhashable type: 'dict'")
  | _ => Ok None
  end.

(** ** The methods *)

(** The body of the loop of [fetch_and_transform_events]. *)
Definition process_event (event : pyval) : M unit :=
  event_type <- lift (Py.get event "key_name") ;;
  found <- lift (registry_lookup event_type) ;;
  match found with
  | Some (parser_func, method_name, model_class) =>
      data <- lift (Py.getitem event "data") ;;
      parsed_data <- lift (parser_func data) ;;
      db_model <- lift (model_class (model_dump parsed_data)) ;;
      self <- get_self ;;
      op <- lift (db_getitem (db_connector self) method_name) ;;
      call_db (db_connector self) op db_model
  | None =>
      raise (ValueError [Lit "Event type "; Fmt event_type; Lit " not supported, yet..."])
  end.

(** What one iteration settles before it reaches the database: the call
    it is about to make, or the exception it raises.  [process_event] is
    this followed by the call ([process_event_split] below). *)
Definition dispatch_of (db : ZkLendEventDBConnector) (event : pyval) : result Call :=
  match Py.get event "key_name" with
  | Raise e => Raise e
  | Ok event_type =>
      match registry_lookup event_type with
      | Raise e => Raise e
      | Ok None =>
          Raise (ValueError
                   [Lit "Event type "; Fmt event_type; Lit " not supported, yet..."])
      | Ok (Some (parser_func, method_name, model_class)) =>
          match Py.getitem event "data" with
          | Raise e => Raise e
          | Ok data =>
              match parser_func data with
              | Raise e => Raise e
              | Ok parsed_data =>
                  match model_class (model_dump parsed_data) with
                  | Raise e => Raise e
                  | Ok db_model =>
                      match db_getitem db method_name with
                      | Raise e => Raise e
                      | Ok op => Ok {| call_op := op; call_arg := db_model |}
                      end
                  end
              end
          end
      end
  end.

Definition fetch_and_transform_events
    (from_address : string) (min_block max_block : Z) : M unit :=
  self <- get_self ;;
  response <- call_get_data (api_connector self) from_address min_block max_block ;;
  has_error <- lift (Py.contains response "error") ;;
  if (has_error : bool) then
    detail <- lift (Py.getitem response "error") ;;
    raise (ValueError [Lit "Error fetching events: "; Fmt detail])
  else
    events <- lift (Py.iter response) ;;
    for_each process_event events.

(** [valid_event db event c]: [event] is a mapping whose type the registry
    knows, whose payload its parser accepts and whose parsed fields the
    record type takes, and the connector answers the subscript with the
    operation the entry names; [c] is then the call the entry asks for. *)
Inductive valid_event (db : ZkLendEventDBConnector) : pyval -> Call -> Prop :=
| valid_event_intro items t parser_func method_name model_class
      data parsed_data db_model :
    Py.dict_get items "key_name" = Some (PStr t) ->
    mapping_get EVENT_MAPPING t = Some (parser_func, method_name, model_class) ->
    Py.dict_get items "data" = Some data ->
    parser_func data = Ok parsed_data ->
    model_class (model_dump parsed_data) = Ok db_model ->
    db_getitem db method_name = Ok method_name ->
    valid_event db (PDict items) {| call_op := method_name; call_arg := db_model |}.

(** The two single-event methods read their entry with a literal key. *)
Definition mapping_getitem (k : string) : result Entry :=
  match mapping_get EVENT_MAPPING k with
  | Some e => Ok e
  | None => Raise (KeyError k)
  end.

Definition save_accumulators_sync_event (event : pyval) : M unit :=
  self <- get_self ;;
  entry <- lift (mapping_getitem ACCUMULATORS_SYNC) ;;
  let '(parser_func, _, model_class) := entry in
  parsed_data <- lift (parser_func event) ;;
  db_model <- lift (model_class (model_dump parsed_data)) ;;
  op <- lift (db_getattr (db_connector self) "create_accumulator_event") ;;
  call_db (db_connector self) op db_model.

Definition save_liquidation_event (event : pyval) : M unit :=
  self <- get_self ;;
  entry <- lift (mapping_getitem LIQUIDATION) ;;
  let '(parser_func, _, model_class) := entry in
  parsed_data <- lift (parser_func event) ;;
  db_model <- lift (model_class (model_dump parsed_data)) ;;
  op <- lift (db_getattr (db_connector self) "create_liquidation_event") ;;
  call_db (db_connector self) op db_model.

End Transformer.

Arguments get_data {World} d _ _ _ _.
Arguments db_getitem {World Base} z _.
Arguments db_has_operation {World Base} z _.
Arguments db_getattr {World Base} db name.
Arguments db_call {World Base} z _ _ _.
Arguments Build_DeRiskAPIConnector {World} get_data.
Arguments Build_ZkLendEventDBConnector {World Base} db_has_operation db_getitem db_call.
Arguments api_connector {World Base} z.
Arguments db_connector {World Base} z.
Arguments Build_ZklendTransformer {World Base} api_connector db_connector.
Arguments call_op {Base} c.
Arguments call_arg {Base} c.
Arguments Build_Call {Base} call_op call_arg.
Arguments this {World Base} s.
Arguments world {World Base} s.
Arguments calls {World Base} s.
Arguments Build_St {World Base} this world calls.
Arguments set_world {World Base} w st.
Arguments record_call {World Base} c st.
Arguments call_db {World Base} db op db_model _.
Arguments for_each {World Base} body items _.
Arguments mapping_get {Base} m k.

(** ** Test doubles

    Stand-ins for the collaborators, in the manner of the mocks of the test
    suite: parsers that accept any mapping, model classes that keep their
    keyword arguments, a fetch client that answers with a canned response
    and a connector that appends each record to the database. *)
Module Mock.

Record Row : Type := { row_class : string; row_columns : list (string * pyval) }.

Definition Database : Type := list Row.

Definition parse_mapping (payload : pyval) : result BaseModel :=
  match payload with
  | PDict items => Ok {| model_dump := items |}
  | _ => Raise (Foreign "ValidationError" [])
  end.

Definition model (cls : string) (kwargs : list (string * pyval)) : result Row :=
  Ok {| row_class := cls; row_columns := kwargs |}.

Definition api (response : pyval) : DeRiskAPIConnector Database :=
  {| get_data := fun _ _ _ w => (Ok response, w) |}.

Definition operations : list string :=
  ["create_accumulator_event"; "create_liquidation_event"].

Definition has_operation (name : string) : bool :=
  existsb (String.eqb name) operations.

(** A connector that answers a subscript with the operation of that name. *)
Definition db : ZkLendEventDBConnector Database Row :=
  {| db_has_operation := has_operation;
     db_getitem := fun name => Ok name;
     db_call := fun _ row w => (Ok tt, w ++ [row]) |}.

(** A connector whose class defines no [__getitem__]. *)
Definition plain_db : ZkLendEventDBConnector Database Row :=
  {| db_getitem := fun _ =>
       Raise (TypeError "'ZkLendEventDBConnector' object is not subscriptable");
     db_has_operation := has_operation;
     db_call := fun _ row w => (Ok tt, w ++ [row]) |}.

Definition start (response : pyval) : St Database Row :=
  {| this := {| api_connector := api response; db_connector := db |};
     world := [];
     calls := [] |}.

Definition start_plain (response : pyval) : St Database Row :=
  {| this := {| api_connector := api response; db_connector := plain_db |};
     world := [];
     calls := [] |}.

Definition fetch_and_transform_events :=
  fetch_and_transform_events Database Row
    parse_mapping parse_mapping
    (model "AccumulatorsSyncEventData") (model "LiquidationEventData").

Definition save_liquidation_event :=
  save_liquidation_event Database Row
    parse_mapping parse_mapping
    (model "AccumulatorsSyncEventData") (model "LiquidationEventData").

Definition event (key_name : string) (data : pyval) : pyval :=
  PDict [("key_name", PStr key_name); ("data", data)].

Definition accumulators_sync (token : string) : pyval :=
  event ACCUMULATORS_SYNC (PDict [("token", PStr token)]).

Definition liquidation (user : string) : pyval :=
  event LIQUIDATION (PDict [("user", PStr user)]).

Definition accumulator_call (token : string) : Call Row :=
  {| call_op := "create_accumulator_event";
     call_arg := {| row_class := "AccumulatorsSyncEventData";
                    row_columns := [("token", PStr token)] |} |}.

Definition liquidation_call (user : string) : Call Row :=
  {| call_op := "create_liquidation_event";
     call_arg := {| row_class := "LiquidationEventData";
                    row_columns := [("user", PStr user)] |} |}.

(** Inputs of the examples. *)
Definition address : string := "0x04c0a5193d58f74f".

Definition timeout_response : pyval :=
  PDict [("error", PStr "timeout"); ("events", PList [liquidation "0xabc"])].

Definition three_syncs_one_liquidation : list pyval :=
  [accumulators_sync "ETH"; accumulators_sync "USDC"; accumulators_sync "DAI";
   liquidation "0xabc"].

Definition unknown_event : pyval :=
  event "zklend::market::Market::Repayment" (PDict [("amount", PInt 5)]).

Definition untyped_event : pyval :=
  PDict [("data", PDict [("user", PStr "0xabc")])].

Definition item_with_error_key : pyval :=
  PDict [("key_name", PStr LIQUIDATION);
         ("data", PDict [("user", PStr "0xabc")]);
         ("error", PStr "reorg")].

Definition run (response : pyval) : result unit * St Database Row :=
  fetch_and_transform_events address 0 100 (start response).

(** The state in which the loop leaves the events [evs] of [response]. *)
Definition after (evs : list pyval) (response : pyval) : St Database Row :=
  snd (for_each
         (process_event Database Row parse_mapping parse_mapping
            (model "AccumulatorsSyncEventData") (model "LiquidationEventData"))
         evs (start response)).

End Mock.

(** ** Serializers and record types of the registry *)

Module SpecModel.

(** Modelled from the spec: the serializer classes behind the two parsers
    and the two ORM model classes, which [EVENT_MAPPING] imports from
    [data_handler.handler_tools.data_parser.serializers] and
    [data_handler.db.models.zklend_events] and which are not part of this
    module.  By the specification a parser checks that every required field
    is in the payload and has the right shape and fails with a
    [ValidationError] otherwise; its output holds those fields, text as
    text and an amount as the exact number received (an integer of
    any size, no floating point); the record type's constructor
    arguments are the parser output's fields, field for field.  The names and
    kinds of the fields of an event type are the parameter [schema]. *)
Inductive kind : Type :=
| Text
| Amount.

Definition well_shaped (k : kind) (v : pyval) : bool :=
  match k, v with
  | Text, PStr _ => true
  | Amount, PInt _ => true
  | _, _ => false
  end.

(** Modelled from the spec: the validation a parser does, field by field of
    the schema: a field that is absent or of the wrong shape makes it fail,
    a field that passes is kept with the value the payload has. *)
Fixpoint extract (schema : list (string * kind)) (items : list (string * pyval))
    : option (list (string * pyval)) :=
  match schema with
  | [] => Some []
  | (f, k) :: rest =>
      match Py.dict_get items f with
      | Some v =>
          if well_shaped k v then
            match extract rest items with
            | Some kwargs => Some ((f, v) :: kwargs)
            | None => None
            end
          else None
      | None => None
      end
  end.

(** Modelled from the spec: a parser, [parse(payload) -> ParsedEventData],
    which fails with a [ValidationError] on a payload that is no mapping or
    does not pass the validation. *)
Definition parser (schema : list (string * kind)) (payload : pyval) : result BaseModel :=
  match payload with
  | PDict items =>
      match extract schema items with
      | Some kwargs => Ok {| model_dump := kwargs |}
      | None => Raise (Foreign "ValidationError" [])
      end
  | _ => Raise (Foreign "ValidationError" [])
  end.

Definition mem (name : string) (names : list string) : bool :=
  existsb (String.eqb name) names.

(** Modelled from the spec: a record type, whose constructor takes its
    keyword arguments when they are the expected ones, field for field: none
    unexpected, none missing. *)
Definition record_type (cls : string) (schema : list (string * kind))
    (kwargs : list (string * pyval)) : result Mock.Row :=
  if forallb (fun kv => mem (fst kv) (map fst schema)) kwargs
     && forallb (fun f => mem f (map fst kwargs)) (map fst schema)
  then Ok {| Mock.row_class := cls; Mock.row_columns := kwargs |}
  else Raise (TypeError ("invalid keyword arguments for " ++ cls)).

Definition EVENT_MAPPING (accumulators_sync_schema liquidation_schema : list (string * kind))
    : list (string * Entry Mock.Row) :=
  EVENT_MAPPING Mock.Row
    (parser accumulators_sync_schema) (parser liquidation_schema)
    (record_type "AccumulatorsSyncEventData" accumulators_sync_schema)
    (record_type "LiquidationEventData" liquidation_schema).

(** Modelled from the spec: a payload is well formed for a schema when it
    has every field of the schema, in the right shape, and no other field. *)
Definition well_formed (schema : list (string * kind)) (items : list (string * pyval))
    : bool :=
  forallb (fun fk => match Py.dict_get items (fst fk) with
                     | Some v => well_shaped (snd fk) v
                     | None => false
                     end) schema
  && forallb (fun kv => mem (fst kv) (map fst schema)) items.

(** Inputs of the examples. *)
Definition accumulators_sync_schema : list (string * kind) :=
  [("token", Text); ("lending_accumulator", Amount); ("debt_accumulator", Amount)].

Definition liquidation_schema : list (string * kind) :=
  [("user", Text); ("debt_token", Text); ("debt_face_amount", Amount)].

Definition accumulators_sync_payload : list (string * pyval) :=
  [("token", PStr "0x049d36570d4e46f4");
   ("lending_accumulator", PInt 1000000000000000000000000000001);
   ("debt_accumulator", PInt 1000000285502086812961530404)].

(** The batch method over these parsers and record types. *)
Definition fetch_and_transform_events
    (accumulators_sync_schema liquidation_schema : list (string * kind)) :=
  fetch_and_transform_events Mock.Database Mock.Row
    (parser accumulators_sync_schema) (parser liquidation_schema)
    (record_type "AccumulatorsSyncEventData" accumulators_sync_schema)
    (record_type "LiquidationEventData" liquidation_schema).

End SpecModel.

(** ** What an iteration dispatches *)

Section Dispatch.

Variable World : Type.
Variable Base : Type.
Variable parse_accumulators_sync_event : pyval -> result BaseModel.
Variable parse_liquidation_event : pyval -> result BaseModel.
Variable AccumulatorsSyncModel : list (string * pyval) -> result Base.
Variable LiquidationModel : list (string * pyval) -> result Base.

(** [dispatched db event c]: the iteration on [event] gets as far as the
    call [c]: [event] is a mapping whose ['key_name'] is a key of the
    registry, it has a ['data'] item the entry's parser accepts, the record
    type takes the parsed fields, and the subscript of the connector by the
    entry's operation name hands back the operation of [c]. *)
Inductive dispatched (db : ZkLendEventDBConnector World Base) : pyval -> Call Base -> Prop :=
| dispatched_intro items t parser_func method_name model_class
      data parsed_data db_model op :
    Py.dict_get items "key_name" = Some (PStr t) ->
    mapping_get
      (EVENT_MAPPING Base parse_accumulators_sync_event parse_liquidation_event
         AccumulatorsSyncModel LiquidationModel) t
      = Some (parser_func, method_name, model_class) ->
    Py.dict_get items "data" = Some data ->
    parser_func data = Ok parsed_data ->
    model_class (model_dump parsed_data) = Ok db_model ->
    db_getitem db method_name = Ok op ->
    dispatched db (PDict items) {| call_op := op; call_arg := db_model |}.

(** Two event mappings that agree on the two keys the loop reads. *)
Definition same_key_and_data (ev1 ev2 : pyval) : Prop :=
  exists items1 items2,
    ev1 = PDict items1 /\ ev2 = PDict items2
    /\ Py.dict_get items1 "key_name" = Py.dict_get items2 "key_name"
    /\ Py.dict_get items1 "data" = Py.dict_get items2 "data".

End Dispatch.

(** ** More test doubles *)

Module Faulty.

(** A database that holds at most [capacity] rows: a call on a full database
    raises and stores nothing. *)
Definition limited_db (capacity : nat) : ZkLendEventDBConnector Mock.Database Mock.Row :=
  {| db_has_operation := Mock.has_operation;
     db_getitem := fun name => Ok name;
     db_call := fun _ row w =>
       if Nat.ltb (length w) capacity then (Ok tt, w ++ [row])
       else (Raise (Foreign "IntegrityError" []), w) |}.

Definition start (capacity : nat) (response : pyval) : St Mock.Database Mock.Row :=
  {| this := {| api_connector := Mock.api response; db_connector := limited_db capacity |};
     world := [];
     calls := [] |}.

(** A record type with required columns: it raises when one is missing. *)
Definition strict_model (cls : string) (required : list string)
    (kwargs : list (string * pyval)) : result Mock.Row :=
  if forallb (fun f => SpecModel.mem f (map fst kwargs)) required
  then Ok {| Mock.row_class := cls; Mock.row_columns := kwargs |}
  else Raise (TypeError ("missing keyword arguments for " ++ cls)).

(** A fetch client that answers by block range: the first chunk below block
    50, the second chunk from block 50 on, the whole batch for the range
    that spans both. *)
Definition chunked_api (chunk1 chunk2 : list pyval) : DeRiskAPIConnector Mock.Database :=
  {| get_data := fun _ min_block max_block w =>
       if Z.leb max_block 50 then (Ok (PList chunk1), w)
       else if Z.leb 50 min_block then (Ok (PList chunk2), w)
       else (Ok (PList (chunk1 ++ chunk2)), w) |}.

Definition chunked_start (chunk1 chunk2 : list pyval) : St Mock.Database Mock.Row :=
  {| this := {| api_connector := chunked_api chunk1 chunk2; db_connector := Mock.db |};
     world := [];
     calls := [] |}.

(** The batch method and its loop on these doubles. *)
Definition run (capacity : nat) (response : pyval) : result unit * St Mock.Database Mock.Row :=
  Mock.fetch_and_transform_events Mock.address 0 100 (start capacity response).

Definition after (capacity : nat) (evs : list pyval) (response : pyval)
    : St Mock.Database Mock.Row :=
  snd (for_each
         (process_event Mock.Database Mock.Row Mock.parse_mapping Mock.parse_mapping
            (Mock.model "AccumulatorsSyncEventData") (Mock.model "LiquidationEventData"))
         evs (start capacity response)).

Definition strict_run (response : pyval) : result unit * St Mock.Database Mock.Row :=
  fetch_and_transform_events Mock.Database Mock.Row
    Mock.parse_mapping Mock.parse_mapping
    (strict_model "AccumulatorsSyncEventData" ["token"])
    (strict_model "LiquidationEventData" ["user"])
    Mock.address 0 100 (Mock.start response).

Definition strict_after (evs : list pyval) (response : pyval) : St Mock.Database Mock.Row :=
  snd (for_each
         (process_event Mock.Database Mock.Row Mock.parse_mapping Mock.parse_mapping
            (strict_model "AccumulatorsSyncEventData" ["token"])
            (strict_model "LiquidationEventData" ["user"]))
         evs (Mock.start response)).

(** Inputs of the examples. *)
Definition liquidation_without_data : pyval :=
  PDict [("key_name", PStr LIQUIDATION); ("block_number", PInt 650000)].

Definition liquidation_without_user : pyval :=
  Mock.event LIQUIDATION (PDict [("debt_token", PStr "0x53c9")]).

Definition liquidation_with_block (user : string) (block : Z) : pyval :=
  PDict [("block_number", PInt block);
         ("key_name", PStr LIQUIDATION);
         ("data", PDict [("user", PStr user)]);
         ("transaction_hash", PStr "0x7a1e")].

Definition three_events : list pyval :=
  [Mock.accumulators_sync "ETH"; Mock.liquidation "0xabc"; Mock.accumulators_sync "DAI"].

End Faulty.

(** * Properties *)

Section Properties.

Context {World Base : Type}.
Variable parse_accumulators_sync_event : pyval -> result BaseModel.
Variable parse_liquidation_event : pyval -> result BaseModel.
Variable AccumulatorsSyncModel : list (string * pyval) -> result Base.
Variable LiquidationModel : list (string * pyval) -> result Base.

Local Abbreviation EVENT_MAPPING :=
  (EVENT_MAPPING Base parse_accumulators_sync_event parse_liquidation_event
     AccumulatorsSyncModel LiquidationModel).
Local Abbreviation registry_lookup :=
  (registry_lookup Base parse_accumulators_sync_event parse_liquidation_event
     AccumulatorsSyncModel LiquidationModel).
Local Abbreviation process_event :=
  (process_event World Base parse_accumulators_sync_event parse_liquidation_event
     AccumulatorsSyncModel LiquidationModel).
Local Abbreviation valid_event :=
  (valid_event World Base parse_accumulators_sync_event parse_liquidation_event
     AccumulatorsSyncModel LiquidationModel).
Local Abbreviation dispatch_of :=
  (dispatch_of World Base parse_accumulators_sync_event parse_liquidation_event
     AccumulatorsSyncModel LiquidationModel).
Local Abbreviation fetch_and_transform_events :=
  (fetch_and_transform_events World Base
     parse_accumulators_sync_event parse_liquidation_event
     AccumulatorsSyncModel LiquidationModel).
Local Abbreviation save_liquidation_event :=
  (save_liquidation_event World Base
     parse_accumulators_sync_event parse_liquidation_event
     AccumulatorsSyncModel LiquidationModel).

Implicit Types (st : St World Base) (w : World) (c : Call Base).
Implicit Types (ev event_type data response : pyval) (evs pre post : list pyval).

Local Ltac unfold_monad :=
  unfold bind, lift, raise, ret, get_self, call_get_data in *.

(** ** The loop *)

Lemma for_each_app (body : pyval -> M World Base unit) pre post st :
  for_each body (pre ++ post) st =
  match for_each body pre st with
  | (Ok _, st1) => for_each body post st1
  | (Raise e, st1) => (Raise e, st1)
  end.
Proof.
  revert st; induction pre as [|x pre IH]; intro st; simpl.
  - reflexivity.
  - unfold bind. destruct (body x st) as [[[]|e] st1]; [apply IH | reflexivity].
Qed.

(** The loop stops at the first event whose body raises: the events after
    it play no part in the outcome. *)
Lemma for_each_stops (body : pyval -> M World Base unit) pre x post st st1 st2 e :
  for_each body pre st = (Ok tt, st1) ->
  body x st1 = (Raise e, st2) ->
  for_each body (pre ++ x :: post) st = (Raise e, st2).
Proof.
  intros Hpre Hx. rewrite for_each_app, Hpre. simpl.
  unfold bind. now rewrite Hx.
Qed.

(** ** One iteration *)

Lemma process_event_split ev st :
  process_event ev st =
  match dispatch_of (db_connector (this st)) ev with
  | Ok c => call_db (db_connector (this st)) (call_op c) (call_arg c) st
  | Raise e => (Raise e, st)
  end.
Proof.
  unfold process_event, dispatch_of. unfold_monad.
  destruct (Py.get ev "key_name") as [event_type|e]; [|reflexivity].
  destruct (registry_lookup event_type) as [[[[parser_func method_name] model_class]|]|e];
    try reflexivity.
  unfold_monad.
  destruct (Py.getitem ev "data") as [data|e]; [|reflexivity].
  destruct (parser_func data) as [parsed_data|e]; [|reflexivity].
  destruct (model_class (model_dump parsed_data)) as [db_model|e]; [|reflexivity].
  destruct (db_getitem (db_connector (this st)) method_name) as [op|e]; reflexivity.
Qed.

Lemma call_db_frame (db : ZkLendEventDBConnector World Base) op (m : Base) st r st' :
  call_db db op m st = (r, st') ->
  this st' = this st /\ calls st' = calls st ++ [ {| call_op := op; call_arg := m |} ].
Proof.
  unfold call_db. destruct (db_call db op m (world st)) as [r0 w0].
  intros [= <- <-]. split; reflexivity.
Qed.

(** An iteration never touches [self] and makes at most one call. *)
Lemma process_event_frame ev st r st' :
  process_event ev st = (r, st') ->
  this st' = this st /\
  (calls st' = calls st \/ exists c, calls st' = calls st ++ [c]).
Proof.
  rewrite process_event_split.
  destruct (dispatch_of (db_connector (this st)) ev) as [c|e].
  - intros H. apply call_db_frame in H as [Hthis Hcalls].
    split; [assumption | right; eauto].
  - intros [= <- <-]. split; [reflexivity | now left].
Qed.

(** An iteration that returns has made exactly one call. *)
Lemma process_event_ok ev st st' :
  process_event ev st = (Ok tt, st') ->
  this st' = this st /\ exists c, calls st' = calls st ++ [c].
Proof.
  rewrite process_event_split.
  destruct (dispatch_of (db_connector (this st)) ev) as [c|e]; [|discriminate].
  intros H. apply call_db_frame in H as [Hthis Hcalls]. eauto.
Qed.

Lemma for_each_ok evs : forall st st',
  for_each process_event evs st = (Ok tt, st') ->
  this st' = this st /\
  exists cs, calls st' = calls st ++ cs /\ length cs = length evs.
Proof.
  induction evs as [|ev evs IH]; simpl; intros st st'.
  - intros [= <-]. split; [reflexivity|]. exists []. now rewrite app_nil_r.
  - unfold bind. destruct (process_event ev st) as [[[]|e] st1] eqn:Hev; [|discriminate].
    intros Hrest. apply process_event_ok in Hev as [Hthis [c Hc]].
    apply IH in Hrest as [Hthis' [cs [Hcs Hlen]]].
    split; [congruence|]. exists (c :: cs). split; [|simpl; congruence].
    rewrite Hcs, Hc, <- app_assoc. reflexivity.
Qed.

Lemma for_each_frame evs : forall st r st',
  for_each process_event evs st = (r, st') ->
  this st' = this st /\
  exists cs, calls st' = calls st ++ cs /\ length cs <= length evs.
Proof.
  induction evs as [|ev evs IH]; simpl; intros st r st'.
  - intros [= <- <-]. split; [reflexivity|]. exists []. now rewrite app_nil_r.
  - unfold bind. destruct (process_event ev st) as [[[]|e] st1] eqn:Hev.
    + intros Hrest. apply process_event_ok in Hev as [Hthis [c Hc]].
      apply IH in Hrest as [Hthis' [cs [Hcs Hlen]]].
      split; [congruence|]. exists (c :: cs). split; [|simpl; lia].
      rewrite Hcs, Hc, <- app_assoc. reflexivity.
    + intros [= <- <-]. apply process_event_frame in Hev as [Hthis Hc].
      split; [assumption|]. destruct Hc as [Hc|[c Hc]].
      * exists []. rewrite app_nil_r. split; [assumption | simpl; lia].
      * exists [c]. split; [assumption | simpl; lia].
Qed.

(** ** Entering the loop *)

Lemma fetch_enters_loop st from_address min_block max_block evs w :
  get_data (api_connector (this st)) from_address min_block max_block (world st)
    = (Ok (PList evs), w) ->
  Py.contains (PList evs) "error" = Ok false ->
  fetch_and_transform_events from_address min_block max_block st
    = for_each process_event evs (set_world w st).
Proof.
  intros Hget Hin. unfold fetch_and_transform_events.
  unfold_monad. rewrite Hget, Hin. reflexivity.
Qed.

(** ** The fetch-error check *)

(** C1. When the fetch response is a mapping with an ['error'] key, whatever
    else it holds, [fetch_and_transform_events] raises the fetch error, a
    [ValueError] whose message is ["Error fetching events: "] followed by the
    value under ['error'], and the connector receives no call. *)
Theorem fetch_error_raises_without_persisting
    st from_address min_block max_block items detail w :
  get_data (api_connector (this st)) from_address min_block max_block (world st)
    = (Ok (PDict items), w) ->
  Py.dict_get items "error" = Some detail ->
  fetch_and_transform_events from_address min_block max_block st
    = (Raise (ValueError [Lit "Error fetching events: "; Fmt detail]), set_world w st)
  /\ calls (set_world w st) = calls st.
Proof.
  intros Hget Herr. split; [|reflexivity].
  unfold fetch_and_transform_events. unfold_monad. rewrite Hget.
  unfold Py.contains, Py.getitem, Py.dict_has. rewrite Herr. reflexivity.
Qed.

Lemma contains_error_mappings evs :
  Forall (fun ev => exists items, ev = PDict items) evs ->
  Py.contains (PList evs) "error" = Ok false.
Proof.
  intros Hall. simpl. f_equal.
  induction Hall as [|ev evs [items ->] _ IH]; simpl; [reflexivity | exact IH].
Qed.

(** C10, as amended.  On a sequence the check is element membership of the
    string ['error']: a sequence of mappings goes to the loop even when its
    items have an ['error'] key, and a sequence with the bare string
    ['error'] among its items takes the fetch-error branch, where reading
    [response['error']] for the message raises a [TypeError]; no event is
    processed and the connector receives no call. *)
Theorem error_check_on_sequence_is_membership
    st from_address min_block max_block evs w :
  get_data (api_connector (this st)) from_address min_block max_block (world st)
    = (Ok (PList evs), w) ->
  (Py.contains (PList evs) "error" = Ok (existsb (fun ev => Py.eq_str ev "error") evs))
  /\ (Forall (fun ev => exists items, ev = PDict items) evs ->
      fetch_and_transform_events from_address min_block max_block st
        = for_each process_event evs (set_world w st))
  /\ (In (PStr "error") evs ->
      fetch_and_transform_events from_address min_block max_block st
        = (Raise (TypeError "list indices must be integers or slices, not str"),
           set_world w st)
      /\ calls (set_world w st) = calls st).
Proof.
  intros Hget. split; [reflexivity|]. split.
  - intros Hall. apply fetch_enters_loop; [assumption|].
    now apply contains_error_mappings.
  - intros Hin. split; [|reflexivity].
    unfold fetch_and_transform_events. unfold_monad. rewrite Hget. simpl.
    replace (existsb (fun ev => Py.eq_str ev "error") evs) with true; [reflexivity|].
    symmetry. apply existsb_exists. exists (PStr "error"). split; [assumption|reflexivity].
Qed.

(** ** Failing events *)

(** C2, as amended.  When an event's type has no registry entry and the
    events before it were dispatched, [fetch_and_transform_events] raises the
    unsupported-event [ValueError] naming that type; no call is made for that
    event or for any event after it, and the events before it have each had
    their one call already. *)
Theorem unknown_type_stops_the_batch
    st from_address min_block max_block pre ev post w event_type st1 :
  get_data (api_connector (this st)) from_address min_block max_block (world st)
    = (Ok (PList (pre ++ ev :: post)), w) ->
  Py.contains (PList (pre ++ ev :: post)) "error" = Ok false ->
  Py.get ev "key_name" = Ok event_type ->
  registry_lookup event_type = Ok None ->
  for_each process_event pre (set_world w st) = (Ok tt, st1) ->
  fetch_and_transform_events from_address min_block max_block st
    = (Raise (ValueError
                [Lit "Event type "; Fmt event_type; Lit " not supported, yet..."]),
       st1)
  /\ exists cs, calls st1 = calls st ++ cs /\ length cs = length pre.
Proof.
  intros Hget Hin Hkey Hreg Hpre. split.
  - rewrite (fetch_enters_loop _ _ _ _ _ _ Hget Hin).
    apply for_each_stops with (st1 := st1); [assumption|].
    rewrite process_event_split. unfold dispatch_of. now rewrite Hkey, Hreg.
  - apply for_each_ok in Hpre as [_ Hcs]. exact Hcs.
Qed.

(** C9. An event mapping without ['key_name'] does not fail on the missing
    key: its type is [None], which has no registry entry, so once the events
    before it are dispatched the unsupported-event [ValueError] naming [None]
    is raised and no later event is processed. *)
Theorem missing_key_name_is_unsupported_none
    st from_address min_block max_block pre items post w st1 :
  get_data (api_connector (this st)) from_address min_block max_block (world st)
    = (Ok (PList (pre ++ PDict items :: post)), w) ->
  Py.contains (PList (pre ++ PDict items :: post)) "error" = Ok false ->
  Py.dict_get items "key_name" = None ->
  for_each process_event pre (set_world w st) = (Ok tt, st1) ->
  Py.get (PDict items) "key_name" = Ok PNone
  /\ registry_lookup PNone = Ok None
  /\ fetch_and_transform_events from_address min_block max_block st
      = (Raise (ValueError
                  [Lit "Event type "; Fmt PNone; Lit " not supported, yet..."]),
         st1).
Proof.
  intros Hget Hin Hkey Hpre.
  assert (Hnone : Py.get (PDict items) "key_name" = Ok PNone)
    by (simpl; now rewrite Hkey).
  split; [assumption|]. split; [reflexivity|].
  rewrite (fetch_enters_loop _ _ _ _ _ _ Hget Hin).
  apply for_each_stops with (st1 := st1); [assumption|].
  rewrite process_event_split. unfold dispatch_of. now rewrite Hnone.
Qed.

(** C4, as amended.  When an event's type is known and its parser raises,
    [fetch_and_transform_events] raises that very exception, as the parser
    made it (the method adds no tag of its own), once the events before it
    are dispatched; nothing is caught and no later event is processed. *)
Theorem parser_failure_propagates_unchanged
    st from_address min_block max_block pre items post w st1
    t parser_func method_name model_class data e :
  get_data (api_connector (this st)) from_address min_block max_block (world st)
    = (Ok (PList (pre ++ PDict items :: post)), w) ->
  Py.contains (PList (pre ++ PDict items :: post)) "error" = Ok false ->
  Py.dict_get items "key_name" = Some (PStr t) ->
  mapping_get EVENT_MAPPING t = Some (parser_func, method_name, model_class) ->
  Py.dict_get items "data" = Some data ->
  parser_func data = Raise e ->
  for_each process_event pre (set_world w st) = (Ok tt, st1) ->
  fetch_and_transform_events from_address min_block max_block st = (Raise e, st1)
  /\ exists cs, calls st1 = calls st ++ cs /\ length cs = length pre.
Proof.
  intros Hget Hin Hkey Hreg Hdata Hparse Hpre. split.
  - rewrite (fetch_enters_loop _ _ _ _ _ _ Hget Hin).
    apply for_each_stops with (st1 := st1); [assumption|].
    rewrite process_event_split.
    unfold dispatch_of, registry_lookup, Py.get, Py.getitem.
    rewrite Hkey, Hreg, Hdata, Hparse. reflexivity.
  - apply for_each_ok in Hpre as [_ Hcs]. exact Hcs.
Qed.

(** ** Valid batches *)

Lemma valid_event_dispatch db ev c :
  valid_event db ev c ->
  dispatch_of db ev = Ok c.
Proof.
  intros [items t parser_func method_name model_class data parsed_data db_model
            Hkey Hreg Hdata Hparse Hmodel Hitem].
  unfold dispatch_of, registry_lookup, Py.get, Py.getitem.
  rewrite Hkey, Hreg, Hdata, Hparse, Hmodel, Hitem. reflexivity.
Qed.

Lemma valid_events_are_mappings db evs cs :
  Forall2 (valid_event db) evs cs ->
  Forall (fun ev => exists items, ev = PDict items) evs.
Proof.
  induction 1 as [|ev c evs cs Hv _ IH]; constructor; [|exact IH].
  destruct Hv. eauto.
Qed.

Lemma for_each_valid evs : forall cs st,
  Forall2 (valid_event (db_connector (this st))) evs cs ->
  (forall c w, In c cs ->
     fst (db_call (db_connector (this st)) (call_op c) (call_arg c) w) = Ok tt) ->
  exists st',
    for_each process_event evs st = (Ok tt, st')
    /\ calls st' = calls st ++ cs
    /\ this st' = this st.
Proof.
  induction evs as [|ev evs IH]; intros cs st Hvalid Hcall.
  - inversion Hvalid; subst. exists st. simpl. now rewrite app_nil_r.
  - inversion Hvalid as [|ev0 c evs0 cs0 Hv Hrest]; subst.
    simpl. unfold bind. rewrite process_event_split.
    rewrite (valid_event_dispatch _ _ _ Hv).
    destruct (call_db (db_connector (this st)) (call_op c) (call_arg c) st)
      as [r st1] eqn:Hdb.
    assert (Hr : r = Ok tt).
    { unfold call_db in Hdb.
      specialize (Hcall c (world st) (or_introl eq_refl)).
      destruct (db_call (db_connector (this st)) (call_op c) (call_arg c) (world st))
        as [r0 w0]. simpl in Hcall. congruence. }
    subst r. apply call_db_frame in Hdb as [Hthis Hcalls].
    destruct (IH cs0 st1) as [st' [Hrun [Hcs Hthis']]].
    + now rewrite Hthis.
    + intros c' w' Hin. rewrite Hthis. apply Hcall. now right.
    + exists st'. split; [exact Hrun|]. split; [|congruence].
      rewrite Hcs, Hcalls, <- app_assoc. destruct c; reflexivity.
Qed.

(** X14. On a connector that answers the subscript by an entry's operation
    name with the operation of that name, and whose calls return: when every
    event of the batch is valid (known type, payload its parser accepts,
    fields its record type takes), [fetch_and_transform_events] returns
    after exactly one call per event, each to the operation its registry
    entry names with the record built from its parser's output, in the
    order of the batch. *)
Theorem valid_batch_is_dispatched_in_order
    st from_address min_block max_block evs cs w :
  get_data (api_connector (this st)) from_address min_block max_block (world st)
    = (Ok (PList evs), w) ->
  Forall2 (valid_event (db_connector (this st))) evs cs ->
  (forall c w', In c cs ->
     fst (db_call (db_connector (this st)) (call_op c) (call_arg c) w') = Ok tt) ->
  exists st',
    fetch_and_transform_events from_address min_block max_block st = (Ok tt, st')
    /\ calls st' = calls st ++ cs
    /\ length cs = length evs.
Proof.
  intros Hget Hvalid Hcall.
  rewrite (fetch_enters_loop _ _ _ _ _ _ Hget
             (contains_error_mappings _ (valid_events_are_mappings _ _ _ Hvalid))).
  destruct (for_each_valid evs cs (set_world w st) Hvalid Hcall) as [st' [Hrun [Hcs _]]].
  exists st'. split; [exact Hrun|]. split; [exact Hcs|].
  symmetry. eapply Forall2_length; eassumption.
Qed.

(** ** The single-event method *)


(** ** Independence of invocations *)

Lemma fetch_frame st from_address min_block max_block :
  this (snd (fetch_and_transform_events from_address min_block max_block st)) = this st.
Proof.
  unfold fetch_and_transform_events. unfold_monad.
  destruct (get_data (api_connector (this st)) from_address min_block max_block (world st))
    as [[response|e] w]; [|reflexivity].
  destruct (Py.contains response "error") as [[|]|e]; [| |reflexivity].
  - destruct (Py.getitem response "error"); reflexivity.
  - destruct (Py.iter response) as [evs|e]; [|reflexivity].
    destruct (for_each process_event evs (set_world w st)) as [r st'] eqn:Hrun.
    apply for_each_frame in Hrun as [Hthis _]. exact Hthis.
Qed.

(** Whether a persistence call returns or raises does not hang on the state
    of the world it runs in. *)
Definition outcome_is_stateless (db : ZkLendEventDBConnector World Base) : Prop :=
  forall op (m : Base) w w', fst (db_call db op m w) = fst (db_call db op m w').

Lemma process_event_same ev st1 st2 :
  this st1 = this st2 ->
  outcome_is_stateless (db_connector (this st1)) ->
  exists r cs st1' st2',
    process_event ev st1 = (r, st1') /\ process_event ev st2 = (r, st2')
    /\ calls st1' = calls st1 ++ cs /\ calls st2' = calls st2 ++ cs
    /\ this st1' = this st1 /\ this st2' = this st2.
Proof.
  intros Hthis Hstateless. rewrite !process_event_split, <- Hthis.
  destruct (dispatch_of (db_connector (this st1)) ev) as [c|e].
  - unfold call_db.
    specialize (Hstateless (call_op c) (call_arg c) (world st1) (world st2)).
    destruct (db_call (db_connector (this st1)) (call_op c) (call_arg c) (world st1))
      as [r1 w1].
    destruct (db_call (db_connector (this st1)) (call_op c) (call_arg c) (world st2))
      as [r2 w2].
    simpl in Hstateless. subst r2. do 4 eexists.
    repeat split; simpl; congruence.
  - exists (Raise e), [], st1, st2. rewrite !app_nil_r.
    repeat split; congruence.
Qed.

Lemma for_each_same evs : forall st1 st2,
  this st1 = this st2 ->
  outcome_is_stateless (db_connector (this st1)) ->
  exists r cs st1' st2',
    for_each process_event evs st1 = (r, st1')
    /\ for_each process_event evs st2 = (r, st2')
    /\ calls st1' = calls st1 ++ cs /\ calls st2' = calls st2 ++ cs.
Proof.
  induction evs as [|ev evs IH]; intros st1 st2 Hthis Hstateless; simpl.
  - exists (Ok tt), [], st1, st2. rewrite !app_nil_r. repeat split.
  - unfold bind.
    destruct (process_event_same ev st1 st2 Hthis Hstateless)
      as [r [cs [st1' [st2' [H1 [H2 [Hc1 [Hc2 [Ht1 Ht2]]]]]]]]].
    rewrite H1, H2. destruct r as [[]|e].
    + destruct (IH st1' st2') as [r' [cs' [st1'' [st2'' [H1' [H2' [Hc1' Hc2']]]]]]].
      * congruence.
      * now rewrite Ht1.
      * exists r', (cs ++ cs'), st1'', st2''.
        rewrite H1', H2', Hc1', Hc2', Hc1, Hc2, <- !app_assoc. repeat split.
    + exists (Raise e), cs, st1', st2'. repeat split; assumption.
Qed.

(** C8, as amended.  [fetch_and_transform_events] keeps no state of its
    own: a run leaves [self] (the references to its two collaborators) as it
    found it, and when the outcome of a persistence call (return or raise)
    does not hang on the state of the store, two runs of one transformer that
    are given the same fetch response end with the same outcome after the
    same sequence of persistence calls, whatever the state of the world each
    starts in. *)
Theorem fetch_and_transform_holds_no_state :
  (forall st from_address min_block max_block,
      this (snd (fetch_and_transform_events from_address min_block max_block st))
        = this st)
  /\ (forall st1 st2 a1 lo1 hi1 a2 lo2 hi2 response w1 w2,
        this st1 = this st2 ->
        outcome_is_stateless (db_connector (this st1)) ->
        get_data (api_connector (this st1)) a1 lo1 hi1 (world st1) = (Ok response, w1) ->
        get_data (api_connector (this st2)) a2 lo2 hi2 (world st2) = (Ok response, w2) ->
        exists r cs st1' st2',
          fetch_and_transform_events a1 lo1 hi1 st1 = (r, st1')
          /\ fetch_and_transform_events a2 lo2 hi2 st2 = (r, st2')
          /\ calls st1' = calls st1 ++ cs
          /\ calls st2' = calls st2 ++ cs).
Proof.
  split; [exact fetch_frame|].
  intros st1 st2 a1 lo1 hi1 a2 lo2 hi2 response w1 w2 Hthis Hstateless Hget1 Hget2.
  unfold fetch_and_transform_events. unfold_monad. rewrite Hget1, Hget2.
  destruct (Py.contains response "error") as [[|]|e].
  - destruct (Py.getitem response "error") as [detail|e].
    + exists (Raise (ValueError [Lit "Error fetching events: "; Fmt detail])), [].
      do 2 eexists. rewrite !app_nil_r. repeat split.
    + exists (Raise e), []. do 2 eexists. rewrite !app_nil_r. repeat split.
  - destruct (Py.iter response) as [evs|e].
    + apply (for_each_same evs (set_world w1 st1) (set_world w2 st2)); assumption.
    + exists (Raise e), []. do 2 eexists. rewrite !app_nil_r. repeat split.
  - exists (Raise e), []. do 2 eexists. rewrite !app_nil_r. repeat split.
Qed.

(** ** The registry *)

Lemma registry_keys :
  map fst EVENT_MAPPING = [ACCUMULATORS_SYNC; LIQUIDATION].
Proof. reflexivity. Qed.

Lemma registry_keys_nodup : NoDup (map fst EVENT_MAPPING).
Proof.
  rewrite registry_keys. constructor.
  - intros [H|[]]. discriminate H.
  - constructor; [intros [] | constructor].
Qed.

Lemma registry_lookup_known t :
  In t (map fst EVENT_MAPPING) ->
  exists parser_func method_name model_class,
    registry_lookup (PStr t) = Ok (Some (parser_func, method_name, model_class))
    /\ In (t, (parser_func, method_name, model_class)) EVENT_MAPPING.
Proof.
  rewrite registry_keys. intros [<-|[<-|[]]]; do 3 eexists; split;
    try reflexivity; simpl; auto.
Qed.

(** ** Further properties of the batch method *)

Local Abbreviation dispatched :=
  (dispatched World Base parse_accumulators_sync_event parse_liquidation_event
     AccumulatorsSyncModel LiquidationModel).
Local Abbreviation save_accumulators_sync_event :=
  (save_accumulators_sync_event World Base
     parse_accumulators_sync_event parse_liquidation_event
     AccumulatorsSyncModel LiquidationModel).

Lemma dispatched_dispatch db ev c : dispatched db ev c -> dispatch_of db ev = Ok c.
Proof.
  intros [items t parser_func method_name model_class data parsed_data db_model op
            Hkey Hreg Hdata Hparse Hmodel Hitem].
  unfold dispatch_of, registry_lookup, Py.get, Py.getitem.
  rewrite Hkey, Hreg, Hdata, Hparse, Hmodel, Hitem. reflexivity.
Qed.

Lemma dispatch_of_inv db ev c : dispatch_of db ev = Ok c -> dispatched db ev c.
Proof.
  unfold dispatch_of, Py.get, Py.getitem.
  destruct ev as [| | | | |items]; try discriminate.
  destruct (Py.dict_get items "key_name") as [event_type|] eqn:Hkey; [|discriminate].
  unfold registry_lookup.
  destruct event_type as [| | |t| |]; try discriminate.
  destruct (mapping_get EVENT_MAPPING t) as [[[parser_func method_name] model_class]|]
    eqn:Hreg; [|discriminate].
  destruct (Py.dict_get items "data") as [data|] eqn:Hdata; [|discriminate].
  destruct (parser_func data) as [parsed_data|] eqn:Hparse; [|discriminate].
  destruct (model_class (model_dump parsed_data)) as [db_model|] eqn:Hmodel; [|discriminate].
  destruct (db_getitem db method_name) as [op|] eqn:Hitem; [|discriminate].
  intros [= <-]. econstructor; eassumption.
Qed.

(** The method stops at the first event whose iteration raises before the
    call. *)
Lemma fetch_stops_at_failed_dispatch
    st from_address min_block max_block pre ev post w st1 e :
  get_data (api_connector (this st)) from_address min_block max_block (world st)
    = (Ok (PList (pre ++ ev :: post)), w) ->
  Py.contains (PList (pre ++ ev :: post)) "error" = Ok false ->
  for_each process_event pre (set_world w st) = (Ok tt, st1) ->
  dispatch_of (db_connector (this st1)) ev = Raise e ->
  fetch_and_transform_events from_address min_block max_block st = (Raise e, st1).
Proof.
  intros Hget Hin Hpre Hev.
  rewrite (fetch_enters_loop _ _ _ _ _ _ Hget Hin).
  apply for_each_stops with (st1 := st1); [assumption|].
  rewrite process_event_split. now rewrite Hev.
Qed.

(** X1. An event of a known type without a ['data'] item raises
    [KeyError('data')]: the type is looked up first, the payload is read
    next, and the parser is not reached. *)
Theorem known_type_without_data_raises_key_error
    st from_address min_block max_block pre items post w st1 t entry :
  get_data (api_connector (this st)) from_address min_block max_block (world st)
    = (Ok (PList (pre ++ PDict items :: post)), w) ->
  Py.contains (PList (pre ++ PDict items :: post)) "error" = Ok false ->
  Py.dict_get items "key_name" = Some (PStr t) ->
  mapping_get EVENT_MAPPING t = Some entry ->
  Py.dict_get items "data" = None ->
  for_each process_event pre (set_world w st) = (Ok tt, st1) ->
  fetch_and_transform_events from_address min_block max_block st
    = (Raise (KeyError "data"), st1).
Proof.
  intros Hget Hin Hkey Hreg Hdata Hpre.
  apply (fetch_stops_at_failed_dispatch _ _ _ _ _ _ _ _ _ _ Hget Hin Hpre).
  unfold dispatch_of, registry_lookup, Py.get, Py.getitem.
  rewrite Hkey, Hreg, Hdata. destruct entry as [[parser_func method_name] model_class].
  reflexivity.
Qed.

(** X2. An item of the batch that is not a mapping (a string, a number,
    [None], a nested list) raises the [AttributeError] of its missing [get]
    method; the events before it keep their calls, the events after it are
    not processed. *)
Theorem non_mapping_event_raises_attribute_error
    st from_address min_block max_block pre ev post w st1 :
  get_data (api_connector (this st)) from_address min_block max_block (world st)
    = (Ok (PList (pre ++ ev :: post)), w) ->
  Py.contains (PList (pre ++ ev :: post)) "error" = Ok false ->
  (forall items, ev <> PDict items) ->
  for_each process_event pre (set_world w st) = (Ok tt, st1) ->
  fetch_and_transform_events from_address min_block max_block st
    = (Raise (AttributeError ("'" ++ Py.type_name ev ++ "' object has no attribute 'get'")),
       st1).
Proof.
  intros Hget Hin Hev Hpre.
  apply (fetch_stops_at_failed_dispatch _ _ _ _ _ _ _ _ _ _ Hget Hin Hpre).
  unfold dispatch_of, Py.get.
  destruct ev as [| | | | |items]; try reflexivity.
  now destruct (Hev items).
Qed.

(** X3. When the record type turns down the parsed fields, its exception
    leaves the method as it is and no call is made for that event. *)
Theorem record_constructor_failure_propagates
    st from_address min_block max_block pre items post w st1
    t parser_func method_name model_class data parsed_data e :
  get_data (api_connector (this st)) from_address min_block max_block (world st)
    = (Ok (PList (pre ++ PDict items :: post)), w) ->
  Py.contains (PList (pre ++ PDict items :: post)) "error" = Ok false ->
  Py.dict_get items "key_name" = Some (PStr t) ->
  mapping_get EVENT_MAPPING t = Some (parser_func, method_name, model_class) ->
  Py.dict_get items "data" = Some data ->
  parser_func data = Ok parsed_data ->
  model_class (model_dump parsed_data) = Raise e ->
  for_each process_event pre (set_world w st) = (Ok tt, st1) ->
  fetch_and_transform_events from_address min_block max_block st = (Raise e, st1).
Proof.
  intros Hget Hin Hkey Hreg Hdata Hparse Hmodel Hpre.
  apply (fetch_stops_at_failed_dispatch _ _ _ _ _ _ _ _ _ _ Hget Hin Hpre).
  unfold dispatch_of, registry_lookup, Py.get, Py.getitem.
  rewrite Hkey, Hreg, Hdata, Hparse, Hmodel. reflexivity.
Qed.

(** X4. When a persistence call raises, the method raises the same exception
    at once: that call has been made, the calls before it stand, and no event
    after it is processed (no retry, no rollback). *)
Theorem persistence_failure_stops_after_the_call
    st from_address min_block max_block pre ev post w st1 c e :
  get_data (api_connector (this st)) from_address min_block max_block (world st)
    = (Ok (PList (pre ++ ev :: post)), w) ->
  Py.contains (PList (pre ++ ev :: post)) "error" = Ok false ->
  for_each process_event pre (set_world w st) = (Ok tt, st1) ->
  dispatched (db_connector (this st1)) ev c ->
  fst (db_call (db_connector (this st1)) (call_op c) (call_arg c) (world st1)) = Raise e ->
  exists st2,
    fetch_and_transform_events from_address min_block max_block st = (Raise e, st2)
    /\ calls st2 = calls st1 ++ [c].
Proof.
  intros Hget Hin Hpre Hev Hcall.
  rewrite (fetch_enters_loop _ _ _ _ _ _ Hget Hin).
  destruct (process_event ev st1) as [r st2] eqn:Hbody.
  pose proof Hbody as Hrun.
  rewrite process_event_split, (dispatched_dispatch _ _ _ Hev) in Hrun.
  assert (Hr : r = Raise e).
  { unfold call_db in Hrun.
    destruct (db_call (db_connector (this st1)) (call_op c) (call_arg c) (world st1))
      as [r0 w0]. simpl in Hcall. congruence. }
  subst r. exists st2. split.
  - now apply for_each_stops with (st1 := st1).
  - apply call_db_frame in Hrun as [_ Hcalls]. rewrite Hcalls. now destruct c.
Qed.

Lemma for_each_prefix evs : forall st r st',
  for_each process_event evs st = (r, st') ->
  exists n cs,
    n <= length evs
    /\ Forall2 (dispatched (db_connector (this st))) (firstn n evs) cs
    /\ calls st' = calls st ++ cs
    /\ (r = Ok tt -> n = length evs).
Proof.
  induction evs as [|ev evs IH]; simpl; intros st r st' Hrun.
  - injection Hrun as <- <-. exists 0, []. rewrite app_nil_r. simpl.
    split; [lia|]. split; [constructor|]. split; reflexivity.
  - unfold bind in Hrun. rewrite process_event_split in Hrun.
    destruct (dispatch_of (db_connector (this st)) ev) as [c|e] eqn:Hev.
    + apply dispatch_of_inv in Hev.
      destruct (call_db (db_connector (this st)) (call_op c) (call_arg c) st)
        as [r0 st1] eqn:Hdb.
      apply call_db_frame in Hdb as [Hthis Hcalls].
      assert (Hc : {| call_op := call_op c; call_arg := call_arg c |} = c)
        by now destruct c.
      rewrite Hc in Hcalls.
      destruct r0 as [[]|e].
      * apply IH in Hrun as [n [cs [Hn [Hall [Hcs Hok]]]]].
        exists (S n), (c :: cs). simpl. split; [lia|]. split.
        { constructor; [assumption | now rewrite <- Hthis]. }
        split; [rewrite Hcs, Hcalls, <- app_assoc; reflexivity|].
        intros Hr. now rewrite (Hok Hr).
      * injection Hrun as <- <-. exists 1, [c]. simpl. split; [lia|].
        split; [constructor; [assumption | constructor]|].
        split; [assumption | discriminate].
    + injection Hrun as <- <-. exists 0, []. rewrite app_nil_r. simpl.
      split; [lia|]. split; [constructor|]. split; [reflexivity | discriminate].
Qed.

(** X5. Whatever the outcome on a list response, the calls made are the
    dispatches of an initial segment of the batch, one per event and in batch
    order: no event is skipped and none is persisted ahead of an earlier one;
    when the method returns, the segment is the whole batch. *)
Theorem calls_are_dispatches_of_a_prefix
    st from_address min_block max_block evs w r st' :
  get_data (api_connector (this st)) from_address min_block max_block (world st)
    = (Ok (PList evs), w) ->
  fetch_and_transform_events from_address min_block max_block st = (r, st') ->
  exists n cs,
    n <= length evs
    /\ Forall2 (dispatched (db_connector (this st))) (firstn n evs) cs
    /\ calls st' = calls st ++ cs
    /\ (r = Ok tt -> n = length evs).
Proof.
  intros Hget Hrun.
  destruct (existsb (fun ev => Py.eq_str ev "error") evs) eqn:Hin.
  - unfold fetch_and_transform_events in Hrun. unfold_monad.
    rewrite Hget in Hrun. simpl in Hrun. rewrite Hin in Hrun.
    injection Hrun as <- <-. exists 0, []. simpl. rewrite app_nil_r.
    split; [lia|]. split; [constructor|]. split; [reflexivity | discriminate].
  - rewrite (fetch_enters_loop _ _ _ _ evs w Hget) in Hrun
      by (simpl; now rewrite Hin).
    apply for_each_prefix in Hrun. exact Hrun.
Qed.

(** ** Responses that are not a list *)

Lemma for_each_string_item s rest st :
  for_each process_event (PStr s :: rest) st
    = (Raise (AttributeError "'str' object has no attribute 'get'"), st).
Proof. reflexivity. Qed.

(** X6. Only a list response can lead to a persistence call.  On any other
    response ([None], a number, a string, a mapping with or without an
    ['error'] key) the method makes no call, and it returns normally only on
    the empty mapping and the empty string. *)
Theorem non_list_response_persists_nothing
    st from_address min_block max_block response w r st' :
  get_data (api_connector (this st)) from_address min_block max_block (world st)
    = (Ok response, w) ->
  (forall evs, response <> PList evs) ->
  fetch_and_transform_events from_address min_block max_block st = (r, st') ->
  st' = set_world w st
  /\ calls st' = calls st
  /\ (r = Ok tt <-> response = PDict [] \/ response = PStr "").
Proof.
  intros Hget Hnot Hrun.
  unfold fetch_and_transform_events in Hrun. unfold_monad. rewrite Hget in Hrun.
  destruct response as [|b|z|s|l|d]; simpl in Hrun.
  - injection Hrun as <- <-. repeat split; try discriminate.
    intros [H|H]; discriminate H.
  - injection Hrun as <- <-. repeat split; try discriminate.
    intros [H|H]; discriminate H.
  - injection Hrun as <- <-. repeat split; try discriminate.
    intros [H|H]; discriminate H.
  - destruct (index 0 "error" s) eqn:Hidx.
    + injection Hrun as <- <-. repeat split; try discriminate.
      intros [H|H]; [discriminate H|]. injection H as ->. discriminate Hidx.
    + destruct s as [|a s]; simpl in Hrun.
      * injection Hrun as <- <-. repeat split; auto.
      * injection Hrun as <- <-. repeat split; try discriminate.
        intros [H|H]; discriminate H.
  - now destruct (Hnot l).
  - unfold Py.dict_has in Hrun. destruct (Py.dict_get d "error") as [detail|] eqn:Herr.
    + injection Hrun as <- <-. repeat split; try discriminate.
      intros [H|H]; [|discriminate H]. injection H as ->. discriminate Herr.
    + destruct d as [|[k v] d]; simpl in Hrun.
      * injection Hrun as <- <-. repeat split; auto.
      * injection Hrun as <- <-. repeat split; try discriminate.
        intros [H|H]; discriminate H.
Qed.

(** X7. A mapping response without an ['error'] key is not read as a batch:
    the loop runs over its keys, and the first key, a string, has no [get]
    method, so a non-empty mapping (an envelope such as [{"events": [...]}])
    raises [AttributeError] and nothing is persisted. *)
Theorem mapping_without_error_key_raises_attribute_error
    st from_address min_block max_block k v items w :
  get_data (api_connector (this st)) from_address min_block max_block (world st)
    = (Ok (PDict ((k, v) :: items)), w) ->
  Py.dict_get ((k, v) :: items) "error" = None ->
  fetch_and_transform_events from_address min_block max_block st
    = (Raise (AttributeError "'str' object has no attribute 'get'"), set_world w st)
  /\ calls (set_world w st) = calls st.
Proof.
  intros Hget Herr. split; [|reflexivity].
  unfold fetch_and_transform_events. unfold_monad. rewrite Hget.
  unfold Py.contains, Py.dict_has. rewrite Herr. reflexivity.
Qed.

(** ** Splitting a batch *)

Lemma set_world_same st : set_world (world st) st = st.
Proof. now destruct st. Qed.

(** X8. For a batch none of whose items is the bare string ['error'],
    fetching it in two chunks persists what fetching it in one go persists:
    the run on [evs1 ++ evs2] ends as the run on [evs1] followed, when that
    one returns, by the run on [evs2], and as the run on [evs1] alone when
    that one raises (the fetch client taken to leave the world as it is). *)
Theorem batch_splits_into_chunks
    st evs1 evs2 a lo hi a1 lo1 hi1 a2 lo2 hi2 :
  get_data (api_connector (this st)) a lo hi (world st)
    = (Ok (PList (evs1 ++ evs2)), world st) ->
  get_data (api_connector (this st)) a1 lo1 hi1 (world st)
    = (Ok (PList evs1), world st) ->
  (forall w, get_data (api_connector (this st)) a2 lo2 hi2 w = (Ok (PList evs2), w)) ->
  Py.contains (PList (evs1 ++ evs2)) "error" = Ok false ->
  fetch_and_transform_events a lo hi st
    = match fetch_and_transform_events a1 lo1 hi1 st with
      | (Ok _, st1) => fetch_and_transform_events a2 lo2 hi2 st1
      | (Raise e, st1) => (Raise e, st1)
      end.
Proof.
  intros Hget Hget1 Hget2 Hin.
  assert (Hparts : existsb (fun ev => Py.eq_str ev "error") evs1 = false
                   /\ existsb (fun ev => Py.eq_str ev "error") evs2 = false).
  { simpl in Hin. injection Hin as Hin. rewrite existsb_app in Hin.
    now apply orb_false_elim in Hin. }
  destruct Hparts as [Hin1 Hin2].
  rewrite (fetch_enters_loop _ _ _ _ _ _ Hget Hin).
  rewrite (fetch_enters_loop _ _ _ _ evs1 _ Hget1) by (simpl; now rewrite Hin1).
  rewrite set_world_same, for_each_app.
  destruct (for_each process_event evs1 st) as [[[]|e] st1] eqn:Hrun1; [|reflexivity].
  apply for_each_frame in Hrun1 as [Hthis _].
  rewrite (fetch_enters_loop st1 _ _ _ evs2 (world st1)).
  - now rewrite set_world_same.
  - rewrite Hthis. apply Hget2.
  - simpl. now rewrite Hin2.
Qed.

(** ** What the loop reads of an event *)

Lemma process_event_reads_key_and_data ev1 ev2 st :
  same_key_and_data ev1 ev2 -> process_event ev1 st = process_event ev2 st.
Proof.
  intros [items1 [items2 [-> [-> [Hkey Hdata]]]]].
  rewrite !process_event_split. unfold dispatch_of, Py.get, Py.getitem.
  now rewrite Hkey, Hdata.
Qed.

Lemma for_each_reads_key_and_data evs1 evs2 :
  Forall2 same_key_and_data evs1 evs2 ->
  forall st, for_each process_event evs1 st = for_each process_event evs2 st.
Proof.
  induction 1 as [|ev1 ev2 evs1 evs2 Hev _ IH]; intros st; simpl; [reflexivity|].
  unfold bind. rewrite (process_event_reads_key_and_data _ _ _ Hev).
  destruct (process_event ev2 st) as [[[]|e] st1]; [apply IH | reflexivity].
Qed.

Lemma same_key_and_data_mappings evs1 evs2 :
  Forall2 same_key_and_data evs1 evs2 ->
  Forall (fun ev => exists items, ev = PDict items) evs1
  /\ Forall (fun ev => exists items, ev = PDict items) evs2.
Proof.
  induction 1 as [|ev1 ev2 evs1 evs2 [items1 [items2 [-> [-> _]]]] _ [IH1 IH2]];
    split; constructor; eauto.
Qed.

(** X9. Of an event the method reads the items ['key_name'] and ['data'] and
    nothing else: two batches whose events agree pairwise on these two items
    end in the same outcome with the same calls, whatever other items (block
    number, transaction hash, ...) the events carry. *)
Theorem only_key_name_and_data_are_read
    st a lo hi a' lo' hi' evs evs' w :
  get_data (api_connector (this st)) a lo hi (world st) = (Ok (PList evs), w) ->
  get_data (api_connector (this st)) a' lo' hi' (world st) = (Ok (PList evs'), w) ->
  Forall2 same_key_and_data evs evs' ->
  fetch_and_transform_events a lo hi st = fetch_and_transform_events a' lo' hi' st.
Proof.
  intros Hget Hget' Hsame.
  destruct (same_key_and_data_mappings _ _ Hsame) as [Hmap Hmap'].
  rewrite (fetch_enters_loop _ _ _ _ _ _ Hget (contains_error_mappings _ Hmap)).
  rewrite (fetch_enters_loop _ _ _ _ _ _ Hget' (contains_error_mappings _ Hmap')).
  now apply for_each_reads_key_and_data.
Qed.

(** ** The single-event methods *)

(** X10. For an AccumulatorsSync payload, [save_accumulators_sync_event]
    does what [fetch_and_transform_events] does on the one-event batch
    holding that payload, provided the connector answers the subscript
    ['create_accumulator_event'] as it answers the attribute of that name. *)
Theorem save_accumulators_sync_event_is_one_iteration
    st from_address min_block max_block items payload w :
  get_data (api_connector (this st)) from_address min_block max_block (world st)
    = (Ok (PList [PDict items]), w) ->
  Py.dict_get items "key_name" = Some (PStr ACCUMULATORS_SYNC) ->
  Py.dict_get items "data" = Some payload ->
  db_getitem (db_connector (this st)) "create_accumulator_event"
    = db_getattr (db_connector (this st)) "create_accumulator_event" ->
  fetch_and_transform_events from_address min_block max_block st
    = save_accumulators_sync_event payload (set_world w st).
Proof.
  intros Hget Hkey Hdata Hsub.
  rewrite (fetch_enters_loop _ _ _ _ _ _ Hget eq_refl).
  simpl. unfold bind at 1. rewrite process_event_split.
  unfold dispatch_of, registry_lookup, Py.get, Py.getitem.
  rewrite Hkey, Hdata. simpl. rewrite Hsub.
  unfold save_accumulators_sync_event. unfold_monad. simpl.
  destruct (parse_accumulators_sync_event payload) as [parsed_data|e]; [|reflexivity].
  destruct (AccumulatorsSyncModel (model_dump parsed_data)) as [db_model|e]; [|reflexivity].
  destruct (db_getattr (db_connector (this st)) "create_accumulator_event")
    as [op|e]; [|reflexivity].
  simpl. destruct (call_db (db_connector (this st)) op db_model (set_world w st))
    as [[[]|e] st1]; reflexivity.
Qed.

(** X11. The single-event methods do not look at the type of what they are
    given: whatever the event, each parses it with its own parser and can
    only call its own operation, at most once, and it returns only after that
    call; neither raises the unsupported-event error of the batch method on
    its own. *)
Theorem save_methods_do_not_check_the_type ev st :
  (forall r st',
      save_liquidation_event ev st = (r, st') ->
      this st' = this st
      /\ (calls st' = calls st /\ r <> Ok tt
          \/ exists parsed_data db_model,
               parse_liquidation_event ev = Ok parsed_data
               /\ LiquidationModel (model_dump parsed_data) = Ok db_model
               /\ calls st' = calls st ++ [ {| call_op := "create_liquidation_event";
                                                call_arg := db_model |} ]))
  /\ (forall r st',
        save_accumulators_sync_event ev st = (r, st') ->
        this st' = this st
        /\ (calls st' = calls st /\ r <> Ok tt
            \/ exists parsed_data db_model,
                 parse_accumulators_sync_event ev = Ok parsed_data
                 /\ AccumulatorsSyncModel (model_dump parsed_data) = Ok db_model
                 /\ calls st' = calls st ++ [ {| call_op := "create_accumulator_event";
                                                  call_arg := db_model |} ])).
Proof.
  split; intros r st'.
  - unfold save_liquidation_event. unfold_monad. simpl.
    destruct (parse_liquidation_event ev) as [parsed_data|e];
      [|intros [= <- <-]; split; [reflexivity | left; split; [reflexivity | discriminate]]].
    destruct (LiquidationModel (model_dump parsed_data)) as [db_model|e] eqn:Hmodel;
      [|intros [= <- <-]; split; [reflexivity | left; split; [reflexivity | discriminate]]].
    unfold db_getattr.
    destruct (db_has_operation (db_connector (this st)) "create_liquidation_event");
      [|intros [= <- <-]; split; [reflexivity | left; split; [reflexivity | discriminate]]].
    destruct (call_db (db_connector (this st)) "create_liquidation_event" db_model st)
      as [r0 st0] eqn:Hdb.
    apply call_db_frame in Hdb as [Hthis Hcalls].
    destruct r0 as [[]|e]; intros [= <- <-];
      (split; [assumption | right; exists parsed_data, db_model; auto]).
  - unfold save_accumulators_sync_event. unfold_monad. simpl.
    destruct (parse_accumulators_sync_event ev) as [parsed_data|e];
      [|intros [= <- <-]; split; [reflexivity | left; split; [reflexivity | discriminate]]].
    destruct (AccumulatorsSyncModel (model_dump parsed_data)) as [db_model|e] eqn:Hmodel;
      [|intros [= <- <-]; split; [reflexivity | left; split; [reflexivity | discriminate]]].
    unfold db_getattr.
    destruct (db_has_operation (db_connector (this st)) "create_accumulator_event");
      [|intros [= <- <-]; split; [reflexivity | left; split; [reflexivity | discriminate]]].
    destruct (call_db (db_connector (this st)) "create_accumulator_event" db_model st)
      as [r0 st0] eqn:Hdb.
    apply call_db_frame in Hdb as [Hthis Hcalls].
    destruct r0 as [[]|e]; intros [= <- <-];
      (split; [assumption | right; exists parsed_data, db_model; auto]).
Qed.

(** ** The subscript of the connector *)

(** X13. The batch method persists only through the subscript of the
    connector: with a connector whose subscript raises for every name (an
    object without [__getitem__]), a list response never leads to a
    persistence call, and the method returns only on the empty batch. *)
Theorem unsubscriptable_connector_persists_nothing
    st from_address min_block max_block evs w r st' :
  (forall name, exists e, db_getitem (db_connector (this st)) name = Raise e) ->
  get_data (api_connector (this st)) from_address min_block max_block (world st)
    = (Ok (PList evs), w) ->
  fetch_and_transform_events from_address min_block max_block st = (r, st') ->
  calls st' = calls st /\ (r = Ok tt -> evs = []).
Proof.
  intros Hsub Hget Hrun.
  assert (Hprefix : exists n cs,
             n <= length evs
             /\ Forall2 (dispatched (db_connector (this st))) (firstn n evs) cs
             /\ calls st' = calls st ++ cs
             /\ (r = Ok tt -> n = length evs)).
  { destruct (existsb (fun ev => Py.eq_str ev "error") evs) eqn:Hin.
    - unfold fetch_and_transform_events in Hrun. unfold_monad.
      rewrite Hget in Hrun. simpl in Hrun. rewrite Hin in Hrun.
      injection Hrun as <- <-. exists 0, []. simpl. rewrite app_nil_r.
      split; [lia|]. split; [constructor|]. split; [reflexivity | discriminate].
    - rewrite (fetch_enters_loop _ _ _ _ evs w Hget) in Hrun
        by (simpl; now rewrite Hin).
      apply for_each_prefix in Hrun. exact Hrun. }
  destruct Hprefix as [n [cs [Hn [Hall [Hcalls Hok]]]]].
  assert (Hnil : cs = []).
  { destruct Hall as [|ev c evs0 cs0 Hev _]; [reflexivity|].
    destruct Hev as [items t parser_func method_name model_class data parsed_data
                       db_model op _ _ _ _ _ Hitem].
    destruct (Hsub method_name) as [e He]. congruence. }
  subst cs. rewrite app_nil_r in Hcalls. split; [assumption|].
  intros Hr. specialize (Hok Hr). subst n.
  apply Forall2_length in Hall. rewrite firstn_all in Hall.
  now apply length_zero_iff_nil.
Qed.

(** C3. The code where the claim fails.  The loop reaches the operation by
    subscript, [self.db_connector[method_name]], where the two single-event
    methods use the attribute.  On a connector whose subscript raises (its
    operations are plain methods), a batch whose first event is valid in
    every other respect raises that exception at the first event: no
    persistence call is made for any event of the batch, where the claim has
    one per event. *)
Theorem valid_batch_fails_at_the_subscript
    st from_address min_block max_block items rest w
    t parser_func method_name model_class data parsed_data db_model e :
  get_data (api_connector (this st)) from_address min_block max_block (world st)
    = (Ok (PList (PDict items :: rest)), w) ->
  Py.contains (PList (PDict items :: rest)) "error" = Ok false ->
  Py.dict_get items "key_name" = Some (PStr t) ->
  mapping_get EVENT_MAPPING t = Some (parser_func, method_name, model_class) ->
  Py.dict_get items "data" = Some data ->
  parser_func data = Ok parsed_data ->
  model_class (model_dump parsed_data) = Ok db_model ->
  db_getitem (db_connector (this st)) method_name = Raise e ->
  fetch_and_transform_events from_address min_block max_block st
    = (Raise e, set_world w st)
  /\ calls (set_world w st) = calls st.
Proof.
  intros Hget Hin Hkey Hreg Hdata Hparse Hmodel Hitem. split; [|reflexivity].
  apply (fetch_stops_at_failed_dispatch st _ _ _ [] (PDict items) rest w _ e Hget Hin eq_refl).
  unfold dispatch_of, registry_lookup, Py.get, Py.getitem.
  rewrite Hkey, Hreg, Hdata, Hparse, Hmodel. simpl. now rewrite Hitem.
Qed.

(** C5. The code where the claim fails.  On a connector that has
    ['create_liquidation_event'] as a method and whose subscript raises, the
    two paths part on a payload the parser and the record type accept:
    [save_liquidation_event] makes its call, through the attribute, and
    [fetch_and_transform_events] on the one-event batch of that payload
    raises at the subscript without a call. *)
Theorem single_and_batch_paths_part_at_the_subscript
    st from_address min_block max_block items payload w parsed_data db_model e :
  get_data (api_connector (this st)) from_address min_block max_block (world st)
    = (Ok (PList [PDict items]), w) ->
  Py.dict_get items "key_name" = Some (PStr LIQUIDATION) ->
  Py.dict_get items "data" = Some payload ->
  parse_liquidation_event payload = Ok parsed_data ->
  LiquidationModel (model_dump parsed_data) = Ok db_model ->
  db_has_operation (db_connector (this st)) "create_liquidation_event" = true ->
  db_getitem (db_connector (this st)) "create_liquidation_event" = Raise e ->
  fetch_and_transform_events from_address min_block max_block st
    = (Raise e, set_world w st)
  /\ calls (set_world w st) = calls st
  /\ calls (snd (save_liquidation_event payload (set_world w st)))
     = calls st ++ [ {| call_op := "create_liquidation_event"; call_arg := db_model |} ].
Proof.
  intros Hget Hkey Hdata Hparse Hmodel Hhas Hitem.
  split; [|split; [reflexivity|]].
  - apply (fetch_stops_at_failed_dispatch st _ _ _ [] (PDict items) [] w _ e
             Hget eq_refl eq_refl).
    unfold dispatch_of, registry_lookup, Py.get, Py.getitem.
    rewrite Hkey, Hdata. simpl. rewrite Hparse, Hmodel. now rewrite Hitem.
  - unfold save_liquidation_event. unfold_monad. simpl.
    rewrite Hparse, Hmodel. unfold db_getattr. rewrite Hhas.
    unfold call_db. simpl.
    destruct (db_call (db_connector (this st)) "create_liquidation_event" db_model w)
      as [r w1]. reflexivity.
Qed.

(** ** The type check *)

(** X12. The type check is an exact match of strings: a ['key_name'] has an
    entry exactly when it is one of the two registered strings; [None], a
    boolean, a number and any other string have none (the unsupported-event
    path), and a list or a mapping raises the [TypeError] of an unhashable
    key instead. *)
Theorem type_check_is_exact_match event_type :
  ((exists entry, registry_lookup event_type = Ok (Some entry))
     <-> event_type = PStr ACCUMULATORS_SYNC \/ event_type = PStr LIQUIDATION)
  /\ ((exists e, registry_lookup event_type = Raise e)
        <-> (exists items, event_type = PList items)
            \/ (exists items, event_type = PDict items)).
Proof.
  split; split.
  - intros [entry H]. destruct event_type as [| | |t| |]; try discriminate.
    assert (Hget : mapping_get EVENT_MAPPING t
                   = if String.eqb ACCUMULATORS_SYNC t
                     then Some (parse_accumulators_sync_event, "create_accumulator_event",
                                AccumulatorsSyncModel)
                     else if String.eqb LIQUIDATION t
                          then Some (parse_liquidation_event, "create_liquidation_event",
                                     LiquidationModel)
                          else None) by reflexivity.
    unfold registry_lookup in H. rewrite Hget in H.
    destruct (String.eqb ACCUMULATORS_SYNC t) eqn:Ha.
    + apply String.eqb_eq in Ha. left. now subst.
    + destruct (String.eqb LIQUIDATION t) eqn:Hl; [|discriminate H].
      apply String.eqb_eq in Hl. right. now subst.
  - intros [->| ->]; eexists; reflexivity.
  - intros [e H]. destruct event_type as [| | |t|l|d]; try discriminate; eauto.
  - intros [[items ->]|[items ->]]; eexists; reflexivity.
Qed.

End Properties.

(** ** The registry with the serializers and record types of the specification *)

Lemma mem_In name names : SpecModel.mem name names = true <-> In name names.
Proof.
  unfold SpecModel.mem. rewrite existsb_exists. split.
  - intros [x [Hin Heq]]. apply String.eqb_eq in Heq. now subst.
  - intros Hin. exists name. split; [assumption | apply String.eqb_refl].
Qed.

Lemma extract_keys schema items : forall kwargs,
  SpecModel.extract schema items = Some kwargs -> map fst kwargs = map fst schema.
Proof.
  induction schema as [|[f k] schema IH]; simpl; intros kwargs.
  - now intros [= <-].
  - destruct (Py.dict_get items f) as [v|]; [|discriminate].
    destruct (SpecModel.well_shaped k v); [|discriminate].
    destruct (SpecModel.extract schema items) as [rest|]; [|discriminate].
    intros [= <-]. simpl. f_equal. now apply IH.
Qed.

(** The value the parser keeps for a field is the one the payload has. *)
Lemma extract_get schema items : forall kwargs f,
  SpecModel.extract schema items = Some kwargs ->
  In f (map fst schema) ->
  Py.dict_get kwargs f = Py.dict_get items f.
Proof.
  induction schema as [|[g k] schema IH]; simpl; intros kwargs f Hex Hin.
  - contradiction.
  - destruct (Py.dict_get items g) as [v|] eqn:Hg; [|discriminate].
    destruct (SpecModel.well_shaped k v); [|discriminate].
    destruct (SpecModel.extract schema items) as [rest|] eqn:Hrest; [|discriminate].
    injection Hex as <-. simpl.
    destruct (String.eqb g f) eqn:Hgf.
    + apply String.eqb_eq in Hgf. subst f. now rewrite Hg.
    + apply String.eqb_neq in Hgf. destruct Hin as [Heq|Hin]; [contradiction|].
      now apply IH.
Qed.

Lemma dict_get_none d f : ~ In f (map fst d) -> Py.dict_get d f = None.
Proof.
  induction d as [|[g v] d IH]; simpl; intros Hnot; [reflexivity|].
  destruct (String.eqb g f) eqn:Hgf.
  - apply String.eqb_eq in Hgf. exfalso. apply Hnot. now left.
  - apply IH. intros Hin. apply Hnot. now right.
Qed.

Lemma extract_total schema items :
  forallb (fun fk => match Py.dict_get items (fst fk) with
                     | Some v => SpecModel.well_shaped (snd fk) v
                     | None => false
                     end) schema = true ->
  exists kwargs, SpecModel.extract schema items = Some kwargs.
Proof.
  induction schema as [|[f k] schema IH]; simpl; intros Hall.
  - now exists [].
  - apply andb_prop in Hall as [Hf Hrest].
    destruct (Py.dict_get items f) as [v|]; [|discriminate].
    rewrite Hf. destruct (IH Hrest) as [kwargs ->]. eauto.
Qed.

Lemma record_type_takes_parser_output cls schema payload parsed_data :
  SpecModel.parser schema payload = Ok parsed_data ->
  SpecModel.record_type cls schema (model_dump parsed_data)
    = Ok {| Mock.row_class := cls; Mock.row_columns := model_dump parsed_data |}.
Proof.
  unfold SpecModel.parser. destruct payload as [| | | | |items]; try discriminate.
  destruct (SpecModel.extract schema items) as [kwargs|] eqn:Hex; [|discriminate].
  intros [= <-]. simpl. apply extract_keys in Hex.
  unfold SpecModel.record_type.
  assert (H1 : forallb (fun kv => SpecModel.mem (fst kv) (map fst schema)) kwargs = true).
  { apply forallb_forall. intros kv Hin. apply mem_In. rewrite <- Hex. now apply in_map. }
  assert (H2 : forallb (fun f => SpecModel.mem f (map fst kwargs)) (map fst schema) = true).
  { apply forallb_forall. intros f Hin. apply mem_In. now rewrite Hex. }
  now rewrite H1, H2.
Qed.

(** C7. Each known event type identifier is a key of the registry exactly
    once, and looking it up gives an entry made of a parser, the name of a
    persistence operation and a record type whose constructor takes the
    fields of the parser's output, field for field. *)
Theorem registry_entries_are_unique_and_usable
    (accumulators_sync_schema liquidation_schema : list (string * SpecModel.kind)) :
  NoDup (map fst (SpecModel.EVENT_MAPPING accumulators_sync_schema liquidation_schema))
  /\ forall t,
      In t (map fst (SpecModel.EVENT_MAPPING accumulators_sync_schema liquidation_schema)) ->
      count_occ string_dec
        (map fst (SpecModel.EVENT_MAPPING accumulators_sync_schema liquidation_schema)) t = 1
      /\ exists parser_func method_name model_class,
          mapping_get (SpecModel.EVENT_MAPPING accumulators_sync_schema liquidation_schema) t
            = Some (parser_func, method_name, model_class)
          /\ forall payload parsed_data,
              parser_func payload = Ok parsed_data ->
              exists row,
                model_class (model_dump parsed_data) = Ok row
                /\ Mock.row_columns row = model_dump parsed_data.
Proof.
  split; [apply registry_keys_nodup|].
  intros t Hin. split.
  - apply NoDup_count_occ'; [apply registry_keys_nodup | exact Hin].
  - unfold SpecModel.EVENT_MAPPING in *. rewrite registry_keys in Hin.
    destruct Hin as [<-|[<-|[]]]; do 3 eexists; (split; [reflexivity|]);
      intros payload parsed_data Hparse; eexists;
      (split; [apply (record_type_takes_parser_output _ _ _ _ Hparse) | reflexivity]).
Qed.

(** C6. For a well-formed AccumulatorsSync payload, the parser and the record
    type of the AccumulatorsSync entry, applied as the loop applies them
    (the record type called on the keyword arguments the parser's
    [model_dump()] gives), yield a record in which every field reads exactly
    as in the payload; an amount is the same integer, whatever its size.
    This is the record [fetch_and_transform_events] hands to
    ['create_accumulator_event'] for the one-event batch of that payload. *)
Theorem accumulators_sync_round_trip
    (accumulators_sync_schema liquidation_schema : list (string * SpecModel.kind))
    (items : list (string * pyval)) :
  SpecModel.well_formed accumulators_sync_schema items = true ->
  exists parser_func method_name model_class parsed_data row,
    mapping_get (SpecModel.EVENT_MAPPING accumulators_sync_schema liquidation_schema)
      ACCUMULATORS_SYNC = Some (parser_func, method_name, model_class)
    /\ parser_func (PDict items) = Ok parsed_data
    /\ model_class (model_dump parsed_data) = Ok row
    /\ (forall f, Py.dict_get (Mock.row_columns row) f = Py.dict_get items f)
    /\ (forall f amount,
          Py.dict_get items f = Some (PInt amount) ->
          Py.dict_get (Mock.row_columns row) f = Some (PInt amount))
    /\ (exists st',
          SpecModel.fetch_and_transform_events accumulators_sync_schema liquidation_schema
            Mock.address 0 100
            (Mock.start (PList [Mock.event ACCUMULATORS_SYNC (PDict items)]))
            = (Ok tt, st')
          /\ calls st' = [ {| call_op := "create_accumulator_event"; call_arg := row |} ]).
Proof.
  intros Hwf. unfold SpecModel.well_formed in Hwf.
  apply andb_prop in Hwf as [Hfields Hkeys].
  destruct (extract_total _ _ Hfields) as [kwargs Hex].
  assert (Hparse : SpecModel.parser accumulators_sync_schema (PDict items)
                   = Ok {| model_dump := kwargs |})
    by (unfold SpecModel.parser; now rewrite Hex).
  assert (Hsame : forall f, Py.dict_get kwargs f = Py.dict_get items f).
  { intros f. destruct (in_dec string_dec f (map fst accumulators_sync_schema)) as [Hin|Hnot].
    - now apply extract_get with (schema := accumulators_sync_schema).
    - rewrite (dict_get_none kwargs f), (dict_get_none items f); [reflexivity| |].
      + intros Hin. apply Hnot. apply in_map_iff in Hin as [[g v] [Hg Hin]].
        simpl in Hg. subst g.
        rewrite forallb_forall in Hkeys. specialize (Hkeys _ Hin).
        apply mem_In in Hkeys. exact Hkeys.
      + now rewrite (extract_keys _ _ _ Hex). }
  do 5 eexists. split; [reflexivity|]. split; [exact Hparse|].
  split; [apply (record_type_takes_parser_output _ _ _ _ Hparse)|].
  simpl. split; [exact Hsame|].
  split; [intros f amount Hf; now rewrite Hsame|].
  unfold SpecModel.fetch_and_transform_events.
  rewrite (fetch_enters_loop _ _ _ _
             (Mock.start (PList [Mock.event ACCUMULATORS_SYNC (PDict items)]))
             Mock.address 0%Z 100%Z _ [] eq_refl eq_refl).
  destruct (for_each_valid
              (SpecModel.parser accumulators_sync_schema)
              (SpecModel.parser liquidation_schema)
              (SpecModel.record_type "AccumulatorsSyncEventData" accumulators_sync_schema)
              (SpecModel.record_type "LiquidationEventData" liquidation_schema)
              [Mock.event ACCUMULATORS_SYNC (PDict items)]
              [ {| call_op := "create_accumulator_event";
                   call_arg := {| Mock.row_class := "AccumulatorsSyncEventData";
                                  Mock.row_columns := kwargs |} |} ]
              (set_world [] (Mock.start (PList [Mock.event ACCUMULATORS_SYNC (PDict items)]))))
    as [st' [Hrun [Hcalls _]]].
  - constructor; [|constructor].
    eapply valid_event_intro with (t := ACCUMULATORS_SYNC) (data := PDict items);
      try reflexivity.
    + exact Hparse.
    + apply (record_type_takes_parser_output _ _ _ _ Hparse).
  - intros c w _. reflexivity.
  - exists st'. split; [exact Hrun | exact Hcalls].
Qed.

(** * Examples on the test doubles *)

(** A response with an ['error'] key next to other content. *)
Lemma fetch_error_timeout_example :
  Mock.run Mock.timeout_response
    = (Raise (ValueError [Lit "Error fetching events: "; Fmt (PStr "timeout")]),
       set_world [] (Mock.start Mock.timeout_response))
  /\ calls (set_world [] (Mock.start Mock.timeout_response))
     = calls (Mock.start Mock.timeout_response).
Proof.
  exact (fetch_error_raises_without_persisting
           Mock.parse_mapping Mock.parse_mapping
           (Mock.model "AccumulatorsSyncEventData") (Mock.model "LiquidationEventData")
           (Mock.start Mock.timeout_response) Mock.address 0%Z 100%Z
           [("error", PStr "timeout"); ("events", PList [Mock.liquidation "0xabc"])]
           (PStr "timeout") [] eq_refl eq_refl).
Defined.

(** Three AccumulatorsSync events, then one Liquidation event. *)
Lemma three_syncs_one_liquidation_example :
  exists st',
    Mock.run (PList Mock.three_syncs_one_liquidation) = (Ok tt, st')
    /\ calls st'
       = calls (Mock.start (PList Mock.three_syncs_one_liquidation))
         ++ [Mock.accumulator_call "ETH"; Mock.accumulator_call "USDC";
             Mock.accumulator_call "DAI"; Mock.liquidation_call "0xabc"]
    /\ length [Mock.accumulator_call "ETH"; Mock.accumulator_call "USDC";
               Mock.accumulator_call "DAI"; Mock.liquidation_call "0xabc"]
       = length Mock.three_syncs_one_liquidation.
Proof.
  apply (valid_batch_is_dispatched_in_order
           Mock.parse_mapping Mock.parse_mapping
           (Mock.model "AccumulatorsSyncEventData") (Mock.model "LiquidationEventData")
           (Mock.start (PList Mock.three_syncs_one_liquidation)) Mock.address 0%Z 100%Z
           Mock.three_syncs_one_liquidation _ []).
  - reflexivity.
  - repeat (constructor; [eapply valid_event_intro; reflexivity|]). constructor.
  - intros c w' _. reflexivity.
Defined.

(** C2, as stated, fails: an event of an unknown type after a valid event.
    The batch holds an event whose type has no registry entry and the
    unsupported-event error is raised, yet the event before it has had its
    persistence call. *)
Lemma unknown_type_after_valid_event_counterexample :
  In Mock.unknown_event [Mock.accumulators_sync "ETH"; Mock.unknown_event]
  /\ registry_lookup Mock.Row Mock.parse_mapping Mock.parse_mapping
       (Mock.model "AccumulatorsSyncEventData") (Mock.model "LiquidationEventData")
       (PStr "zklend::market::Market::Repayment") = Ok None
  /\ fst (Mock.run (PList [Mock.accumulators_sync "ETH"; Mock.unknown_event]))
     = Raise (ValueError [Lit "Event type ";
                          Fmt (PStr "zklend::market::Market::Repayment");
                          Lit " not supported, yet..."])
  /\ calls (snd (Mock.run (PList [Mock.accumulators_sync "ETH"; Mock.unknown_event])))
     = [Mock.accumulator_call "ETH"]
  /\ calls (snd (Mock.run (PList [Mock.accumulators_sync "ETH"; Mock.unknown_event])))
     <> [].
Proof.
  split; [right; left; reflexivity|]. split; [reflexivity|].
  split; [reflexivity|]. split; [reflexivity|]. discriminate.
Qed.

(** An event of an unknown type between two valid events: the first event
    is persisted, the last one is never reached. *)
Lemma unknown_type_stops_the_batch_example :
  Mock.run (PList ([Mock.accumulators_sync "ETH"]
                     ++ Mock.unknown_event :: [Mock.liquidation "0xabc"]))
    = (Raise (ValueError [Lit "Event type ";
                          Fmt (PStr "zklend::market::Market::Repayment");
                          Lit " not supported, yet..."]),
       Mock.after [Mock.accumulators_sync "ETH"]
         (PList ([Mock.accumulators_sync "ETH"]
                   ++ Mock.unknown_event :: [Mock.liquidation "0xabc"])))
  /\ exists cs,
      calls (Mock.after [Mock.accumulators_sync "ETH"]
               (PList ([Mock.accumulators_sync "ETH"]
                         ++ Mock.unknown_event :: [Mock.liquidation "0xabc"])))
        = calls (Mock.start (PList ([Mock.accumulators_sync "ETH"]
                     ++ Mock.unknown_event :: [Mock.liquidation "0xabc"]))) ++ cs
      /\ length cs = length [Mock.accumulators_sync "ETH"].
Proof.
  apply (unknown_type_stops_the_batch
           Mock.parse_mapping Mock.parse_mapping
           (Mock.model "AccumulatorsSyncEventData") (Mock.model "LiquidationEventData")
           (Mock.start (PList ([Mock.accumulators_sync "ETH"]
                     ++ Mock.unknown_event :: [Mock.liquidation "0xabc"])))
           Mock.address 0%Z 100%Z
           [Mock.accumulators_sync "ETH"] Mock.unknown_event [Mock.liquidation "0xabc"]
           [] (PStr "zklend::market::Market::Repayment"));
    reflexivity.
Defined.

(** An event without ['key_name'] between two valid events. *)
Lemma missing_key_name_example :
  Py.get Mock.untyped_event "key_name" = Ok PNone
  /\ registry_lookup Mock.Row Mock.parse_mapping Mock.parse_mapping
       (Mock.model "AccumulatorsSyncEventData") (Mock.model "LiquidationEventData")
       PNone = Ok None
  /\ Mock.run (PList ([Mock.accumulators_sync "ETH"]
                        ++ Mock.untyped_event :: [Mock.liquidation "0xabc"]))
     = (Raise (ValueError [Lit "Event type "; Fmt PNone; Lit " not supported, yet..."]),
        Mock.after [Mock.accumulators_sync "ETH"]
          (PList ([Mock.accumulators_sync "ETH"]
                    ++ Mock.untyped_event :: [Mock.liquidation "0xabc"]))).
Proof.
  apply (missing_key_name_is_unsupported_none
           Mock.parse_mapping Mock.parse_mapping
           (Mock.model "AccumulatorsSyncEventData") (Mock.model "LiquidationEventData")
           (Mock.start (PList ([Mock.accumulators_sync "ETH"]
                        ++ Mock.untyped_event :: [Mock.liquidation "0xabc"])))
           Mock.address 0%Z 100%Z
           [Mock.accumulators_sync "ETH"]
           [("data", PDict [("user", PStr "0xabc")])]
           [Mock.liquidation "0xabc"] []);
    reflexivity.
Defined.

(** C4, as stated, fails: the exception that leaves the method is the
    parser's own.  Two events of different types with different payloads that
    their parsers reject end in one and the same exception, which bears
    neither the type nor the payload of the event. *)
Lemma parser_failure_counterexample :
  fst (Mock.run (PList [Mock.event LIQUIDATION (PInt 7)]))
    = Raise (Foreign "ValidationError" [])
  /\ fst (Mock.run (PList [Mock.event ACCUMULATORS_SYNC PNone]))
     = Raise (Foreign "ValidationError" [])
  /\ Mock.event LIQUIDATION (PInt 7) <> Mock.event ACCUMULATORS_SYNC PNone.
Proof.
  split; [reflexivity|]. split; [reflexivity|]. discriminate.
Qed.

(** A Liquidation event whose payload the parser rejects, between two valid
    events. *)
Lemma parser_failure_example :
  Mock.run (PList ([Mock.accumulators_sync "ETH"]
                     ++ PDict [("key_name", PStr LIQUIDATION); ("data", PInt 7)]
                     :: [Mock.liquidation "0xabc"]))
    = (Raise (Foreign "ValidationError" []),
       Mock.after [Mock.accumulators_sync "ETH"]
         (PList ([Mock.accumulators_sync "ETH"]
                   ++ PDict [("key_name", PStr LIQUIDATION); ("data", PInt 7)]
                   :: [Mock.liquidation "0xabc"])))
  /\ exists cs,
      calls (Mock.after [Mock.accumulators_sync "ETH"]
               (PList ([Mock.accumulators_sync "ETH"]
                         ++ PDict [("key_name", PStr LIQUIDATION); ("data", PInt 7)]
                         :: [Mock.liquidation "0xabc"])))
        = calls (Mock.start
                   (PList ([Mock.accumulators_sync "ETH"]
                             ++ PDict [("key_name", PStr LIQUIDATION); ("data", PInt 7)]
                             :: [Mock.liquidation "0xabc"]))) ++ cs
      /\ length cs = length [Mock.accumulators_sync "ETH"].
Proof.
  apply (parser_failure_propagates_unchanged
           Mock.parse_mapping Mock.parse_mapping
           (Mock.model "AccumulatorsSyncEventData") (Mock.model "LiquidationEventData")
           (Mock.start
              (PList ([Mock.accumulators_sync "ETH"]
                        ++ PDict [("key_name", PStr LIQUIDATION); ("data", PInt 7)]
                        :: [Mock.liquidation "0xabc"])))
           Mock.address 0%Z 100%Z
           [Mock.accumulators_sync "ETH"]
           [("key_name", PStr LIQUIDATION); ("data", PInt 7)]
           [Mock.liquidation "0xabc"] [] (Mock.after [Mock.accumulators_sync "ETH"] _)
           LIQUIDATION Mock.parse_mapping "create_liquidation_event"
           (Mock.model "LiquidationEventData") (PInt 7) (Foreign "ValidationError" []));
    reflexivity.
Defined.

(** C10, as stated, fails: a sequence holding the bare string ['error'] is
    not turned down with the fetch error; a [TypeError] is raised. *)
Lemma error_string_in_sequence_counterexample :
  In (PStr "error") [PStr "error"; Mock.liquidation "0xabc"]
  /\ fst (Mock.run (PList [PStr "error"; Mock.liquidation "0xabc"]))
     = Raise (TypeError "list indices must be integers or slices, not str")
  /\ forall detail,
      fst (Mock.run (PList [PStr "error"; Mock.liquidation "0xabc"]))
      <> Raise (ValueError [Lit "Error fetching events: "; Fmt detail]).
Proof.
  split; [left; reflexivity|]. split; [reflexivity|]. intros detail. discriminate.
Qed.

(** A sequence whose one item is a mapping with an ['error'] key goes through
    the loop, and a sequence with the string ['error'] does not. *)
Lemma error_check_on_sequence_example :
  Mock.run (PList [Mock.item_with_error_key])
    = for_each
        (process_event Mock.Database Mock.Row Mock.parse_mapping Mock.parse_mapping
           (Mock.model "AccumulatorsSyncEventData") (Mock.model "LiquidationEventData"))
        [Mock.item_with_error_key]
        (set_world [] (Mock.start (PList [Mock.item_with_error_key])))
  /\ (Mock.run (PList [PStr "error"; Mock.liquidation "0xabc"])
       = (Raise (TypeError "list indices must be integers or slices, not str"),
          set_world [] (Mock.start (PList [PStr "error"; Mock.liquidation "0xabc"])))
      /\ calls (set_world [] (Mock.start (PList [PStr "error"; Mock.liquidation "0xabc"])))
         = calls (Mock.start (PList [PStr "error"; Mock.liquidation "0xabc"]))).
Proof.
  split.
  - apply (proj1 (proj2 (error_check_on_sequence_is_membership
             Mock.parse_mapping Mock.parse_mapping
             (Mock.model "AccumulatorsSyncEventData") (Mock.model "LiquidationEventData")
             (Mock.start (PList [Mock.item_with_error_key])) Mock.address 0%Z 100%Z
             [Mock.item_with_error_key] [] eq_refl))).
    repeat constructor. eexists. reflexivity.
  - apply (proj2 (proj2 (error_check_on_sequence_is_membership
             Mock.parse_mapping Mock.parse_mapping
             (Mock.model "AccumulatorsSyncEventData") (Mock.model "LiquidationEventData")
             (Mock.start (PList [PStr "error"; Mock.liquidation "0xabc"]))
             Mock.address 0%Z 100%Z
             [PStr "error"; Mock.liquidation "0xabc"] [] eq_refl))).
    left. reflexivity.
Defined.

(** The subscript matters: with a connector that has the operation as a
    method but answers no subscript, the batch path raises a [TypeError]
    before any call while the single-event path makes its call. *)
Remark plain_connector_is_not_subscriptable :
  Mock.fetch_and_transform_events Mock.address 0 100
    (Mock.start_plain (PList [Mock.liquidation "0xabc"]))
    = (Raise (TypeError "'ZkLendEventDBConnector' object is not subscriptable"),
       Mock.start_plain (PList [Mock.liquidation "0xabc"]))
  /\ calls (snd (Mock.save_liquidation_event (PDict [("user", PStr "0xabc")])
                   (Mock.start_plain (PList [Mock.liquidation "0xabc"]))))
     = [Mock.liquidation_call "0xabc"].
Proof. split; reflexivity. Qed.


(** Two runs in a row on the same response: the second starts in the world
    and with the call list the first one left. *)
Lemma two_runs_example :
  exists r cs st1' st2',
    Mock.run (PList Mock.three_syncs_one_liquidation) = (r, st1')
    /\ Mock.fetch_and_transform_events Mock.address 7 9
         (snd (Mock.run (PList Mock.three_syncs_one_liquidation))) = (r, st2')
    /\ calls st1' = calls (Mock.start (PList Mock.three_syncs_one_liquidation)) ++ cs
    /\ calls st2' = calls (snd (Mock.run (PList Mock.three_syncs_one_liquidation))) ++ cs.
Proof.
  apply (proj2 (fetch_and_transform_holds_no_state
                  Mock.parse_mapping Mock.parse_mapping
                  (Mock.model "AccumulatorsSyncEventData")
                  (Mock.model "LiquidationEventData"))
               (Mock.start (PList Mock.three_syncs_one_liquidation))
               (snd (Mock.run (PList Mock.three_syncs_one_liquidation)))
               Mock.address 0%Z 100%Z Mock.address 7%Z 9%Z
               (PList Mock.three_syncs_one_liquidation)
               [] (world (snd (Mock.run (PList Mock.three_syncs_one_liquidation))))).
  - reflexivity.
  - intros op m w w'. reflexivity.
  - reflexivity.
  - reflexivity.
Defined.

(** The entry of the Liquidation events. *)
Lemma liquidation_entry_example :
  count_occ string_dec
    (map fst (SpecModel.EVENT_MAPPING SpecModel.accumulators_sync_schema
                SpecModel.liquidation_schema)) LIQUIDATION = 1
  /\ exists parser_func method_name model_class,
      mapping_get (SpecModel.EVENT_MAPPING SpecModel.accumulators_sync_schema
                     SpecModel.liquidation_schema) LIQUIDATION
        = Some (parser_func, method_name, model_class)
      /\ forall payload parsed_data,
          parser_func payload = Ok parsed_data ->
          exists row,
            model_class (model_dump parsed_data) = Ok row
            /\ Mock.row_columns row = model_dump parsed_data.
Proof.
  apply (proj2 (registry_entries_are_unique_and_usable
                  SpecModel.accumulators_sync_schema SpecModel.liquidation_schema)).
  right. left. reflexivity.
Defined.

(** A payload with amounts of 28 and 31 digits. *)
Lemma accumulators_sync_round_trip_example :
  exists parser_func method_name model_class parsed_data row,
    mapping_get (SpecModel.EVENT_MAPPING SpecModel.accumulators_sync_schema
                   SpecModel.liquidation_schema)
      ACCUMULATORS_SYNC = Some (parser_func, method_name, model_class)
    /\ parser_func (PDict SpecModel.accumulators_sync_payload) = Ok parsed_data
    /\ model_class (model_dump parsed_data) = Ok row
    /\ (forall f, Py.dict_get (Mock.row_columns row) f
                  = Py.dict_get SpecModel.accumulators_sync_payload f)
    /\ (forall f amount,
          Py.dict_get SpecModel.accumulators_sync_payload f = Some (PInt amount) ->
          Py.dict_get (Mock.row_columns row) f = Some (PInt amount))
    /\ (exists st',
          SpecModel.fetch_and_transform_events
            SpecModel.accumulators_sync_schema SpecModel.liquidation_schema
            Mock.address 0 100
            (Mock.start
               (PList [Mock.event ACCUMULATORS_SYNC
                         (PDict SpecModel.accumulators_sync_payload)]))
            = (Ok tt, st')
          /\ calls st' = [ {| call_op := "create_accumulator_event"; call_arg := row |} ]).
Proof.
  apply (accumulators_sync_round_trip
           SpecModel.accumulators_sync_schema SpecModel.liquidation_schema
           SpecModel.accumulators_sync_payload).
  reflexivity.
Defined.

(** * Examples for the further properties *)

(** A Liquidation event without ['data'] between two valid events. *)
Lemma known_type_without_data_example :
  Mock.run (PList ([Mock.accumulators_sync "ETH"]
                     ++ Faulty.liquidation_without_data :: [Mock.liquidation "0xabc"]))
    = (Raise (KeyError "data"),
       Mock.after [Mock.accumulators_sync "ETH"]
         (PList ([Mock.accumulators_sync "ETH"]
                   ++ Faulty.liquidation_without_data :: [Mock.liquidation "0xabc"]))).
Proof.
  apply (known_type_without_data_raises_key_error
           Mock.parse_mapping Mock.parse_mapping
           (Mock.model "AccumulatorsSyncEventData") (Mock.model "LiquidationEventData")
           (Mock.start (PList ([Mock.accumulators_sync "ETH"]
                     ++ Faulty.liquidation_without_data :: [Mock.liquidation "0xabc"])))
           Mock.address 0%Z 100%Z
           [Mock.accumulators_sync "ETH"]
           [("key_name", PStr LIQUIDATION); ("block_number", PInt 650000)]
           [Mock.liquidation "0xabc"] [] _ LIQUIDATION
           (Mock.parse_mapping, "create_liquidation_event",
            Mock.model "LiquidationEventData"));
    reflexivity.
Defined.

(** A number among the events. *)
Lemma non_mapping_event_example :
  Mock.run (PList ([Mock.accumulators_sync "ETH"]
                     ++ PInt 3 :: [Mock.liquidation "0xabc"]))
    = (Raise (AttributeError "'int' object has no attribute 'get'"),
       Mock.after [Mock.accumulators_sync "ETH"]
         (PList ([Mock.accumulators_sync "ETH"]
                   ++ PInt 3 :: [Mock.liquidation "0xabc"]))).
Proof.
  apply (non_mapping_event_raises_attribute_error
           Mock.parse_mapping Mock.parse_mapping
           (Mock.model "AccumulatorsSyncEventData") (Mock.model "LiquidationEventData")
           (Mock.start (PList ([Mock.accumulators_sync "ETH"]
                     ++ PInt 3 :: [Mock.liquidation "0xabc"])))
           Mock.address 0%Z 100%Z
           [Mock.accumulators_sync "ETH"] (PInt 3) [Mock.liquidation "0xabc"] []).
  - reflexivity.
  - reflexivity.
  - intros items. discriminate.
  - reflexivity.
Defined.

(** A Liquidation payload without the column the record type requires. *)
Lemma record_constructor_failure_example :
  Faulty.strict_run (PList ([Mock.accumulators_sync "ETH"]
                              ++ Faulty.liquidation_without_user
                              :: [Mock.liquidation "0xabc"]))
    = (Raise (TypeError "missing keyword arguments for LiquidationEventData"),
       Faulty.strict_after [Mock.accumulators_sync "ETH"]
         (PList ([Mock.accumulators_sync "ETH"]
                   ++ Faulty.liquidation_without_user :: [Mock.liquidation "0xabc"]))).
Proof.
  apply (record_constructor_failure_propagates
           Mock.parse_mapping Mock.parse_mapping
           (Faulty.strict_model "AccumulatorsSyncEventData" ["token"])
           (Faulty.strict_model "LiquidationEventData" ["user"])
           (Mock.start (PList ([Mock.accumulators_sync "ETH"]
                              ++ Faulty.liquidation_without_user
                              :: [Mock.liquidation "0xabc"])))
           Mock.address 0%Z 100%Z
           [Mock.accumulators_sync "ETH"]
           [("key_name", PStr LIQUIDATION); ("data", PDict [("debt_token", PStr "0x53c9")])]
           [Mock.liquidation "0xabc"] [] _ LIQUIDATION
           Mock.parse_mapping "create_liquidation_event"
           (Faulty.strict_model "LiquidationEventData" ["user"])
           (PDict [("debt_token", PStr "0x53c9")])
           {| model_dump := [("debt_token", PStr "0x53c9")] |});
    reflexivity.
Defined.

(** A database with room for one row: the second call raises. *)
Lemma persistence_failure_example :
  exists st2,
    Faulty.run 1 (PList ([Mock.accumulators_sync "ETH"]
                           ++ Mock.liquidation "0xabc" :: [Mock.accumulators_sync "DAI"]))
      = (Raise (Foreign "IntegrityError" []), st2)
    /\ calls st2
       = calls (Faulty.after 1 [Mock.accumulators_sync "ETH"]
                  (PList ([Mock.accumulators_sync "ETH"]
                            ++ Mock.liquidation "0xabc" :: [Mock.accumulators_sync "DAI"])))
         ++ [Mock.liquidation_call "0xabc"].
Proof.
  apply (persistence_failure_stops_after_the_call
           Mock.parse_mapping Mock.parse_mapping
           (Mock.model "AccumulatorsSyncEventData") (Mock.model "LiquidationEventData")
           (Faulty.start 1 (PList ([Mock.accumulators_sync "ETH"]
                           ++ Mock.liquidation "0xabc" :: [Mock.accumulators_sync "DAI"])))
           Mock.address 0%Z 100%Z
           [Mock.accumulators_sync "ETH"] (Mock.liquidation "0xabc")
           [Mock.accumulators_sync "DAI"] []).
  - reflexivity.
  - reflexivity.
  - reflexivity.
  - eapply dispatched_intro; reflexivity.
  - reflexivity.
Defined.

(** The same run: two calls for three events, those of the first two. *)
Lemma calls_are_dispatches_of_a_prefix_example :
  exists n cs,
    n <= length Faulty.three_events
    /\ Forall2 (dispatched Mock.Database Mock.Row Mock.parse_mapping Mock.parse_mapping
                  (Mock.model "AccumulatorsSyncEventData")
                  (Mock.model "LiquidationEventData") (Faulty.limited_db 1))
         (firstn n Faulty.three_events) cs
    /\ calls (snd (Faulty.run 1 (PList Faulty.three_events)))
       = calls (Faulty.start 1 (PList Faulty.three_events)) ++ cs
    /\ (fst (Faulty.run 1 (PList Faulty.three_events)) = Ok tt ->
        n = length Faulty.three_events).
Proof.
  apply (calls_are_dispatches_of_a_prefix
           Mock.parse_mapping Mock.parse_mapping
           (Mock.model "AccumulatorsSyncEventData") (Mock.model "LiquidationEventData")
           (Faulty.start 1 (PList Faulty.three_events)) Mock.address 0%Z 100%Z
           Faulty.three_events []); reflexivity.
Defined.

(** The response [None]. *)
Lemma non_list_response_example :
  snd (Mock.run PNone) = set_world [] (Mock.start PNone)
  /\ calls (snd (Mock.run PNone)) = calls (Mock.start PNone)
  /\ (fst (Mock.run PNone) = Ok tt <-> PNone = PDict [] \/ PNone = PStr "").
Proof.
  apply (non_list_response_persists_nothing
           Mock.parse_mapping Mock.parse_mapping
           (Mock.model "AccumulatorsSyncEventData") (Mock.model "LiquidationEventData")
           (Mock.start PNone) Mock.address 0%Z 100%Z PNone []).
  - reflexivity.
  - intros evs. discriminate.
  - reflexivity.
Defined.

(** The events wrapped in an envelope. *)
Lemma envelope_response_example :
  Mock.run (PDict [("events", PList [Mock.liquidation "0xabc"])])
    = (Raise (AttributeError "'str' object has no attribute 'get'"),
       set_world [] (Mock.start (PDict [("events", PList [Mock.liquidation "0xabc"])])))
  /\ calls (set_world [] (Mock.start (PDict [("events", PList [Mock.liquidation "0xabc"])])))
     = calls (Mock.start (PDict [("events", PList [Mock.liquidation "0xabc"])])).
Proof.
  exact (mapping_without_error_key_raises_attribute_error
           Mock.parse_mapping Mock.parse_mapping
           (Mock.model "AccumulatorsSyncEventData") (Mock.model "LiquidationEventData")
           (Mock.start (PDict [("events", PList [Mock.liquidation "0xabc"])]))
           Mock.address 0%Z 100%Z
           "events" (PList [Mock.liquidation "0xabc"]) [] [] eq_refl eq_refl).
Defined.

(** Blocks 0 to 100 in one fetch, and as 0 to 50 followed by 50 to 100. *)
Lemma batch_splits_into_chunks_example :
  Mock.fetch_and_transform_events Mock.address 0 100
    (Faulty.chunked_start [Mock.accumulators_sync "ETH"; Mock.liquidation "0xabc"]
                          [Mock.accumulators_sync "DAI"])
  = match Mock.fetch_and_transform_events Mock.address 0 50
            (Faulty.chunked_start [Mock.accumulators_sync "ETH"; Mock.liquidation "0xabc"]
                                  [Mock.accumulators_sync "DAI"]) with
    | (Ok _, st1) => Mock.fetch_and_transform_events Mock.address 50 100 st1
    | (Raise e, st1) => (Raise e, st1)
    end.
Proof.
  apply (batch_splits_into_chunks
           Mock.parse_mapping Mock.parse_mapping
           (Mock.model "AccumulatorsSyncEventData") (Mock.model "LiquidationEventData")
           (Faulty.chunked_start [Mock.accumulators_sync "ETH"; Mock.liquidation "0xabc"]
                                 [Mock.accumulators_sync "DAI"])
           [Mock.accumulators_sync "ETH"; Mock.liquidation "0xabc"]
           [Mock.accumulators_sync "DAI"]
           Mock.address 0%Z 100%Z Mock.address 0%Z 50%Z Mock.address 50%Z 100%Z).
  - reflexivity.
  - reflexivity.
  - intros w. reflexivity.
  - reflexivity.
Defined.

(** The same Liquidation payload seen in two blocks. *)
Lemma only_key_name_and_data_example :
  Mock.fetch_and_transform_events Mock.address 0 50
    (Faulty.chunked_start [Faulty.liquidation_with_block "0xabc" 650000]
                          [Faulty.liquidation_with_block "0xabc" 650777])
  = Mock.fetch_and_transform_events Mock.address 50 100
      (Faulty.chunked_start [Faulty.liquidation_with_block "0xabc" 650000]
                            [Faulty.liquidation_with_block "0xabc" 650777]).
Proof.
  apply (only_key_name_and_data_are_read
           Mock.parse_mapping Mock.parse_mapping
           (Mock.model "AccumulatorsSyncEventData") (Mock.model "LiquidationEventData")
           (Faulty.chunked_start [Faulty.liquidation_with_block "0xabc" 650000]
                                 [Faulty.liquidation_with_block "0xabc" 650777])
           Mock.address 0%Z 50%Z Mock.address 50%Z 100%Z
           [Faulty.liquidation_with_block "0xabc" 650000]
           [Faulty.liquidation_with_block "0xabc" 650777] []).
  - reflexivity.
  - reflexivity.
  - constructor; [|constructor].
    do 2 eexists. repeat split; reflexivity.
Defined.

(** One AccumulatorsSync payload, saved directly and fetched as a one-event
    batch. *)
Lemma save_accumulators_sync_event_example :
  Mock.run (PList [Mock.accumulators_sync "ETH"])
    = save_accumulators_sync_event Mock.Database Mock.Row
        Mock.parse_mapping Mock.parse_mapping
        (Mock.model "AccumulatorsSyncEventData") (Mock.model "LiquidationEventData")
        (PDict [("token", PStr "ETH")])
        (set_world [] (Mock.start (PList [Mock.accumulators_sync "ETH"]))).
Proof.
  exact (save_accumulators_sync_event_is_one_iteration
           Mock.parse_mapping Mock.parse_mapping
           (Mock.model "AccumulatorsSyncEventData") (Mock.model "LiquidationEventData")
           (Mock.start (PList [Mock.accumulators_sync "ETH"])) Mock.address 0%Z 100%Z
           [("key_name", PStr ACCUMULATORS_SYNC); ("data", PDict [("token", PStr "ETH")])]
           (PDict [("token", PStr "ETH")]) []
           eq_refl eq_refl eq_refl eq_refl).
Defined.

(** An AccumulatorsSync event, as fetched, handed to
    [save_liquidation_event]: it is stored as a liquidation. *)
Lemma save_liquidation_event_on_other_type_example :
  this (snd (Mock.save_liquidation_event (Mock.accumulators_sync "ETH")
               (Mock.start (PList []))))
    = this (Mock.start (PList []))
  /\ (calls (snd (Mock.save_liquidation_event (Mock.accumulators_sync "ETH")
                    (Mock.start (PList []))))
        = calls (Mock.start (PList []))
      /\ fst (Mock.save_liquidation_event (Mock.accumulators_sync "ETH")
                (Mock.start (PList []))) <> Ok tt
      \/ exists parsed_data db_model,
          Mock.parse_mapping (Mock.accumulators_sync "ETH") = Ok parsed_data
          /\ Mock.model "LiquidationEventData" (model_dump parsed_data) = Ok db_model
          /\ calls (snd (Mock.save_liquidation_event (Mock.accumulators_sync "ETH")
                           (Mock.start (PList []))))
             = calls (Mock.start (PList []))
               ++ [ {| call_op := "create_liquidation_event"; call_arg := db_model |} ]).
Proof.
  apply (proj1 (save_methods_do_not_check_the_type
                  Mock.parse_mapping Mock.parse_mapping
                  (Mock.model "AccumulatorsSyncEventData")
                  (Mock.model "LiquidationEventData")
                  (Mock.accumulators_sync "ETH") (Mock.start (PList [])))).
  reflexivity.
Defined.

(** Three valid events and a connector without [__getitem__]. *)
Lemma unsubscriptable_connector_example :
  calls (snd (Mock.fetch_and_transform_events Mock.address 0 100
                (Mock.start_plain (PList Faulty.three_events))))
    = calls (Mock.start_plain (PList Faulty.three_events))
  /\ (fst (Mock.fetch_and_transform_events Mock.address 0 100
             (Mock.start_plain (PList Faulty.three_events))) = Ok tt ->
      Faulty.three_events = []).
Proof.
  apply (unsubscriptable_connector_persists_nothing
           Mock.parse_mapping Mock.parse_mapping
           (Mock.model "AccumulatorsSyncEventData") (Mock.model "LiquidationEventData")
           (Mock.start_plain (PList Faulty.three_events)) Mock.address 0%Z 100%Z
           Faulty.three_events []).
  - intros name. eexists. reflexivity.
  - reflexivity.
  - reflexivity.
Defined.

(** * The subscript on a connector with plain methods *)

(** Three AccumulatorsSync events and one Liquidation event, all valid: the
    first subscript raises and nothing is persisted. *)
Lemma valid_batch_fails_at_the_subscript_example :
  Mock.fetch_and_transform_events Mock.address 0 100
    (Mock.start_plain (PList Mock.three_syncs_one_liquidation))
    = (Raise (TypeError "'ZkLendEventDBConnector' object is not subscriptable"),
       set_world [] (Mock.start_plain (PList Mock.three_syncs_one_liquidation)))
  /\ calls (set_world [] (Mock.start_plain (PList Mock.three_syncs_one_liquidation)))
     = calls (Mock.start_plain (PList Mock.three_syncs_one_liquidation)).
Proof.
  apply (valid_batch_fails_at_the_subscript
           Mock.parse_mapping Mock.parse_mapping
           (Mock.model "AccumulatorsSyncEventData") (Mock.model "LiquidationEventData")
           (Mock.start_plain (PList Mock.three_syncs_one_liquidation))
           Mock.address 0%Z 100%Z
           [("key_name", PStr ACCUMULATORS_SYNC); ("data", PDict [("token", PStr "ETH")])]
           [Mock.accumulators_sync "USDC"; Mock.accumulators_sync "DAI";
            Mock.liquidation "0xabc"]
           [] ACCUMULATORS_SYNC Mock.parse_mapping "create_accumulator_event"
           (Mock.model "AccumulatorsSyncEventData")
           (PDict [("token", PStr "ETH")])
           {| model_dump := [("token", PStr "ETH")] |}
           {| Mock.row_class := "AccumulatorsSyncEventData";
              Mock.row_columns := [("token", PStr "ETH")] |});
    reflexivity.
Defined.

(** One Liquidation payload: saved directly it is persisted, fetched as a
    one-event batch it is not. *)
Lemma single_and_batch_paths_part_example :
  Mock.fetch_and_transform_events Mock.address 0 100
    (Mock.start_plain (PList [Mock.liquidation "0xabc"]))
    = (Raise (TypeError "'ZkLendEventDBConnector' object is not subscriptable"),
       set_world [] (Mock.start_plain (PList [Mock.liquidation "0xabc"])))
  /\ calls (set_world [] (Mock.start_plain (PList [Mock.liquidation "0xabc"])))
     = calls (Mock.start_plain (PList [Mock.liquidation "0xabc"]))
  /\ calls (snd (Mock.save_liquidation_event (PDict [("user", PStr "0xabc")])
                   (set_world [] (Mock.start_plain (PList [Mock.liquidation "0xabc"])))))
     = calls (Mock.start_plain (PList [Mock.liquidation "0xabc"]))
       ++ [ {| call_op := "create_liquidation_event";
               call_arg := {| Mock.row_class := "LiquidationEventData";
                              Mock.row_columns := [("user", PStr "0xabc")] |} |} ].
Proof.
  apply (single_and_batch_paths_part_at_the_subscript
           Mock.parse_mapping Mock.parse_mapping
           (Mock.model "AccumulatorsSyncEventData") (Mock.model "LiquidationEventData")
           (Mock.start_plain (PList [Mock.liquidation "0xabc"]))
           Mock.address 0%Z 100%Z
           [("key_name", PStr LIQUIDATION); ("data", PDict [("user", PStr "0xabc")])]
           (PDict [("user", PStr "0xabc")]) []
           {| model_dump := [("user", PStr "0xabc")] |});
    reflexivity.
Defined.

(** * Two runs on a store that fills up *)

(** C8, as stated, fails: one transformer, the same fetch response twice, a
    database with room for two rows.  The first run returns after two calls;
    the second, started where the first ended, raises at its first call: the
    two dispatch sequences differ. *)
Lemma two_runs_on_a_full_database_counterexample :
  this (snd (Faulty.run 2 (PList [Mock.accumulators_sync "ETH"; Mock.liquidation "0xabc"])))
    = this (Faulty.start 2 (PList [Mock.accumulators_sync "ETH"; Mock.liquidation "0xabc"]))
  /\ Faulty.run 2 (PList [Mock.accumulators_sync "ETH"; Mock.liquidation "0xabc"])
     = (Ok tt,
        {| this := this (Faulty.start 2
                           (PList [Mock.accumulators_sync "ETH"; Mock.liquidation "0xabc"]));
           world := [call_arg (Mock.accumulator_call "ETH");
                     call_arg (Mock.liquidation_call "0xabc")];
           calls := [Mock.accumulator_call "ETH"; Mock.liquidation_call "0xabc"] |})
  /\ Mock.fetch_and_transform_events Mock.address 0 100
       (snd (Faulty.run 2 (PList [Mock.accumulators_sync "ETH"; Mock.liquidation "0xabc"])))
     = (Raise (Foreign "IntegrityError" []),
        {| this := this (Faulty.start 2
                           (PList [Mock.accumulators_sync "ETH"; Mock.liquidation "0xabc"]));
           world := [call_arg (Mock.accumulator_call "ETH");
                     call_arg (Mock.liquidation_call "0xabc")];
           calls := [Mock.accumulator_call "ETH"; Mock.liquidation_call "0xabc"]
                    ++ [Mock.accumulator_call "ETH"] |})
  /\ [Mock.accumulator_call "ETH"; Mock.liquidation_call "0xabc"]
     <> [Mock.accumulator_call "ETH"].
Proof.
  split; [reflexivity|]. split; [reflexivity|]. split; [reflexivity|]. discriminate.
Qed.
